(** * Movie library: the movie routes and the Movie schema

    A shallow embedding of [server/routes/movies.js] (the six Express
    handlers of the movie router) and of [server/models/Movie.js] (the
    Mongoose schema), with the parts of Express, express-validator,
    Mongoose and MongoDB the handlers call written out as functions.

    - The two collections are finite maps from ObjectIds to documents.
    - A handler takes the database, the authenticated user ([req.user._id],
      set by the [auth] middleware), the route parameter and the body, and
      returns the response it sends, together with the new database when it
      can write.
    - A [try { ... } catch (error) { ... }] block is a match on the
      [Exception] a Mongoose call can throw. *)

From Stdlib Require Import ZArith QArith Lia Ascii String.
From stdpp Require Import base option list strings gmap.

Local Open Scope Z_scope.
Local Set Warnings "-clear-no-such-hyp".

(** ** JavaScript values *)

Module JS.

(** A JSON number. Only finite values are carried, as exact rationals:
    the handlers and the schema only compare them with integer constants. *)
Definition number := Q.

(** [WhiteSpace] and [LineTerminator] code points below 256, the ones
    [String.prototype.trim] strips: TAB, LF, VT, FF, CR, SP and NBSP. *)
Definition isWhiteSpace (c : ascii) : bool :=
  let n := N_of_ascii c in
  ((9 <=? n)%N && (n <=? 13)%N) || (n =? 32)%N || (n =? 160)%N.

Fixpoint trimStart (s : string) : string :=
  match s with
  | String c r => if isWhiteSpace c then trimStart r else s
  | EmptyString => EmptyString
  end.

Fixpoint trimEnd (s : string) : string :=
  match s with
  | String c r =>
      match trimEnd r with
      | EmptyString => if isWhiteSpace c then EmptyString else String c EmptyString
      | r' => String c r'
      end
  | EmptyString => EmptyString
  end.

Definition trim (s : string) : string := trimEnd (trimStart s).

(** Truthiness of a possibly absent string: [undefined] and [""] are falsy. *)
Definition truthy_string (v : option string) : bool :=
  match v with
  | Some EmptyString | None => false
  | Some _ => true
  end.

(** Truthiness of a possibly absent number: [undefined] and [0] are falsy. *)
Definition truthy_number (v : option number) : bool :=
  match v with
  | Some q => negb (Qeq_bool q 0)
  | None => false
  end.

(** What [total / limit] and [Math.ceil] of it give on integers: a finite
    integer, or [Infinity] and [NaN] when the divisor is zero. *)
Inductive num : Type :=
| Num (z : Z)
| Infinity
| NaN.

Definition ceil_div (total limit : Z) : num :=
  if limit =? 0 then (if total =? 0 then NaN else Infinity)
  else Num (- ((- total) / limit)).

End JS.

(** ** Documents *)

Definition ObjectId := N.

Definition hexDigit (c : ascii) : option N :=
  let n := N_of_ascii c in
  if ((48 <=? n) && (n <=? 57))%N then Some (n - 48)%N
  else if ((97 <=? n) && (n <=? 102))%N then Some (n - 87)%N
  else if ((65 <=? n) && (n <=? 70))%N then Some (n - 55)%N
  else None.

Fixpoint fromHex (acc : N) (s : string) : option N :=
  match s with
  | EmptyString => Some acc
  | String c r =>
      match hexDigit c with
      | Some d => fromHex (16 * acc + d)%N r
      | None => None
      end
  end.

(** Casting a route parameter to an ObjectId: a string of 24 hexadecimal
    digits, anything else is a [CastError]. *)
Definition castObjectId (s : string) : option ObjectId :=
  if (String.length s =? 24)%nat then fromHex 0%N s else None.

(** The fields a request body may carry ([MovieFormData], every field
    optional on the wire); [None] is an absent key, [undefined] after the
    destructuring of [req.body]. The same shape serves for [updates]. *)
Record MovieFields : Type := Fields {
  f_title : option string;
  f_description : option string;
  f_genre : option string;
  f_releaseYear : option JS.number;
  f_rating : option JS.number;
  f_posterUrl : option string
}.

(** A stored Movie document (the paths of [movieSchema], with the two
    bookkeeping paths of [timestamps: true]). [rating] has a default and is
    never written as absent by these routes. *)
Record Movie : Type := {
  _id : ObjectId;
  title : string;
  description : string;
  uploadedBy : ObjectId;
  uploadedAt : Z;
  genre : option string;
  releaseYear : option JS.number;
  rating : JS.number;
  posterUrl : option string;
  createdAt : Z;
  updatedAt : Z
}.

(** Modelled from the spec: the User document of [server/models/User.js],
    which is not part of the sources read here. The spec gives a User a
    username, an email and a password hash. *)
Record User : Type := {
  username : string;
  email : string;
  password : string
}.

Record DB : Type := {
  movies : gmap ObjectId Movie;
  users : gmap ObjectId User
}.

Definition with_movies (db : DB) (ms : gmap ObjectId Movie) : DB :=
  {| movies := ms; users := users db |}.

(** ** express-validator *)

Module Validator.

(** One entry of [errors.array()]: the path and the message. *)
Definition error : Type := string * string.

(** The validators see the field through [toString]: [undefined] is [""]. *)
Definition toString (v : option string) : string := default ""%string v.

Definition notEmpty (v : option string) : bool :=
  match toString v with
  | EmptyString => false
  | _ => true
  end.

Definition isLength_max (max : nat) (v : option string) : bool :=
  (String.length (toString v) <=? max)%nat.

(** [body(path).<validator>.withMessage(msg)] *)
Definition check (path : string) (ok : option string → bool) (msg : string)
    (v : option string) : list error :=
  if ok v then [] else [(path, msg)].

(** [body(path).optional().<validator>.withMessage(msg)]: the chain is
    skipped when the field is [undefined]. *)
Definition optional (path : string) (ok : option string → bool) (msg : string)
    (v : option string) : list error :=
  match v with
  | None => []
  | Some _ => check path ok msg v
  end.

End Validator.

(** The chain of [router.post('/')]. *)
Definition post_validationResult (body : MovieFields) : list Validator.error :=
  Validator.check "title" Validator.notEmpty "Title is required" (f_title body)
  ++ Validator.check "description" Validator.notEmpty "Description is required"
       (f_description body)
  ++ Validator.check "title" (Validator.isLength_max 200)
       "Title must be less than 200 characters" (f_title body)
  ++ Validator.check "description" (Validator.isLength_max 1000)
       "Description must be less than 1000 characters" (f_description body).

(** The chain of [router.put('/:id')]. *)
Definition put_validationResult (body : MovieFields) : list Validator.error :=
  Validator.optional "title" Validator.notEmpty "Title cannot be empty" (f_title body)
  ++ Validator.optional "description" Validator.notEmpty "Description cannot be empty"
       (f_description body)
  ++ Validator.optional "title" (Validator.isLength_max 200)
       "Title must be less than 200 characters" (f_title body)
  ++ Validator.optional "description" (Validator.isLength_max 1000)
       "Description must be less than 1000 characters" (f_description body).

(** ** Mongoose: the Movie model *)

(** What a Mongoose call can throw ([error.name] in the [catch] blocks). *)
Inductive Exception : Type :=
| CastError
| ValidationError
| MongoServerError.

(** A filter document. The routes build three: [{}] with an optional
    [$text], [{ uploadedBy }] and [{ title, uploadedBy }]. *)
Record Query : Type := {
  q_text : option string;
  q_title : option string;
  q_uploadedBy : option ObjectId
}.

Definition anyDoc : Query :=
  {| q_text := None; q_title := None; q_uploadedBy := None |}.

(** [uploadedBy] replaced by the referenced user, projected on the selected
    paths ([_id] always comes along); [None] is [null], no such user. *)
Record Owner : Type := {
  o_id : ObjectId;
  o_username : option string;
  o_email : option string
}.

Record Populated : Type := {
  doc : Movie;
  owner : option Owner
}.

(** What [res.status(..).json(..)] sends. *)
Inductive Payload : Type :=
| Errors (errors : list Validator.error)
| Message (message : string)
| MessageMovie (message : string) (movie : option Populated)
| Document (movie : Populated)
| Page (movies : list Populated) (currentPage : Z) (totalPages : JS.num)
    (totalMovies : nat).

Record Response : Type := Res {
  status : Z;
  json : Payload
}.

(** The query string of the two listing routes; [None] is an absent key. *)
Record ListQuery : Type := {
  page : option Z;
  limit : option Z;
  search : option string;
  sortBy : option string;
  sortOrder : option string
}.

Section Model.

(** [new Date().getFullYear()] at the time the schema is built. *)
Variable currentYear : Z.

(** The analyzer of the store's text index: the terms of a string, after
    tokenizing and folding. *)
Variable analyze : string → list string.

(** The store's [sort] on one key with a direction ([-1] or [1]). *)
Variable sortDocs : string → Z → list Movie → list Movie.

(** *** The schema: setters and validators *)

Definition checkRequired (s : string) : bool :=
  match s with
  | EmptyString => false
  | _ => true
  end.

Definition maxlength (n : nat) (s : string) : bool := (String.length s <=? n)%nat.

Definition minmax (lo hi : Z) (q : JS.number) : bool :=
  Qle_bool (inject_Z lo) q && Qle_bool q (inject_Z hi).

(** [trim: true] on the four String paths. *)
Definition applySetters (f : MovieFields) : MovieFields :=
  {| f_title := JS.trim <$> f_title f;
     f_description := JS.trim <$> f_description f;
     f_genre := JS.trim <$> f_genre f;
     f_releaseYear := f_releaseYear f;
     f_rating := f_rating f;
     f_posterUrl := JS.trim <$> f_posterUrl f |}.

(** The validators of the paths that are set; a path that is not set has
    none to run ([required] is checked on the value that is set). *)
Definition runValidators (f : MovieFields) : bool :=
  from_option (λ s, checkRequired s && maxlength 200 s) true (f_title f)
  && from_option (λ s, checkRequired s && maxlength 1000 s) true (f_description f)
  && from_option (maxlength 50) true (f_genre f)
  && from_option (minmax 1900 (currentYear + 5)) true (f_releaseYear f)
  && from_option (minmax 0 10) true (f_rating f).

Definition fieldsOf (m : Movie) : MovieFields :=
  {| f_title := Some (title m);
     f_description := Some (description m);
     f_genre := genre m;
     f_releaseYear := releaseYear m;
     f_rating := Some (rating m);
     f_posterUrl := posterUrl m |}.

(** [new Movie({ title, description, uploadedBy, uploadedAt, ...rest })]:
    setters run and [rating] takes its default. The bookkeeping stamps are
    the ones [save] writes. *)
Definition new_Movie (oid : ObjectId) (t d : string) (by_ : ObjectId) (at_ : Z)
    (rest : MovieFields) (stamp : Z) : Movie :=
  {| _id := oid;
     title := JS.trim t;
     description := JS.trim d;
     uploadedBy := by_;
     uploadedAt := at_;
     genre := JS.trim <$> f_genre rest;
     releaseYear := f_releaseYear rest;
     rating := default (inject_Z 0) (f_rating rest);
     posterUrl := JS.trim <$> f_posterUrl rest;
     createdAt := stamp;
     updatedAt := stamp |}.

(** [$set] of the given paths, and of [updatedAt]. *)
Definition applyUpdate (u : MovieFields) (stamp : Z) (m : Movie) : Movie :=
  {| _id := _id m;
     title := default (title m) (f_title u);
     description := default (description m) (f_description u);
     uploadedBy := uploadedBy m;
     uploadedAt := uploadedAt m;
     genre := from_option Some (genre m) (f_genre u);
     releaseYear := from_option Some (releaseYear m) (f_releaseYear u);
     rating := default (rating m) (f_rating u);
     posterUrl := from_option Some (posterUrl m) (f_posterUrl u);
     createdAt := createdAt m;
     updatedAt := stamp |}.

(** *** Queries *)

(** [movieSchema.index({ title: 'text', description: 'text' })] *)
Definition textIndexTerms (m : Movie) : list string :=
  analyze (title m) ++ analyze (description m).

Definition hasTerm (terms : list string) (t : string) : bool :=
  existsb (String.eqb t) terms.

(** [$text: { $search }]: some term of the search string is a term of the
    document's text index. *)
Definition textMatch (s : string) (m : Movie) : bool :=
  existsb (hasTerm (textIndexTerms m)) (analyze s).

Definition matches (q : Query) (m : Movie) : bool :=
  from_option (λ s, textMatch s m) true (q_text q)
  && from_option (λ t, String.eqb (title m) t) true (q_title q)
  && from_option (λ u, N.eqb (uploadedBy m) u) true (q_uploadedBy q).

Definition allDocs (ms : gmap ObjectId Movie) : list Movie := (map_to_list ms).*2.

Definition find (ms : gmap ObjectId Movie) (q : Query) : list Movie :=
  List.filter (matches q) (allDocs ms).

Definition findOne (ms : gmap ObjectId Movie) (q : Query) : option Movie :=
  head (find ms q).

Definition countDocuments (ms : gmap ObjectId Movie) (q : Query) : nat :=
  length (find ms q).

Definition findById (ms : gmap ObjectId Movie) (id : string) : Exception + option Movie :=
  match castObjectId id with
  | Some oid => inr (ms !! oid)
  | None => inl CastError
  end.

(** [.sort(sort).limit(n).skip(k)]: the store skips, then limits, whatever
    the order of the calls; it refuses a negative skip, takes a limit of
    zero as no limit and a negative one by its absolute value. *)
Definition cursor (found : list Movie) (key : string) (dir : Z) (n k : Z)
    : Exception + list Movie :=
  if k <? 0 then inl MongoServerError
  else
    let rest := drop (Z.to_nat k) (sortDocs key dir found) in
    inr (if n =? 0 then rest else take (Z.to_nat (Z.abs n)) rest).

(** [movie.save()]: validation, then the insert, which the store refuses
    on a duplicate [_id]. *)
Definition save (ms : gmap ObjectId Movie) (m : Movie)
    : Exception + gmap ObjectId Movie :=
  if runValidators (fieldsOf m) then
    match ms !! _id m with
    | Some _ => inl MongoServerError
    | None => inr (<[_id m := m]> ms)
    end
  else inl ValidationError.

(** [Movie.findByIdAndUpdate(id, updates, { new: true, runValidators: true })] *)
Definition findByIdAndUpdate (ms : gmap ObjectId Movie) (id : string)
    (updates : MovieFields) (stamp : Z)
    : Exception + (option Movie * gmap ObjectId Movie) :=
  match castObjectId id with
  | None => inl CastError
  | Some oid =>
      let u := applySetters updates in
      if runValidators u then
        match ms !! oid with
        | Some m => let m' := applyUpdate u stamp m in inr (Some m', <[oid := m']> ms)
        | None => inr (None, ms)
        end
      else inl ValidationError
  end.

Definition findByIdAndDelete (ms : gmap ObjectId Movie) (id : string)
    : Exception + gmap ObjectId Movie :=
  match castObjectId id with
  | Some oid => inr (delete oid ms)
  | None => inl CastError
  end.

Definition selected (path : string) (select : list string) : bool :=
  existsb (String.eqb path) select.

(** [.populate('uploadedBy', select)] *)
Definition populate (select : list string) (us : gmap ObjectId User) (m : Movie)
    : Populated :=
  {| doc := m;
     owner :=
       (λ u, {| o_id := uploadedBy m;
                o_username := if selected "username" select then Some (username u) else None;
                o_email := if selected "email" select then Some (email u) else None |})
       <$> us !! uploadedBy m |}.

(** ** The routes *)

Definition notFound : Response := Res 404 (Message "Movie not found").

(** The [catch] block of the three [/:id] routes. *)
Definition catch_id (error : Exception) (message : string) : Response :=
  match error with
  | CastError => notFound
  | _ => Res 500 (Message message)
  end.

Definition direction (sortOrder : string) : Z :=
  if String.eqb sortOrder "desc" then -1 else 1.

(** The body shared by [GET /api/movies] and [GET /api/movies/user/my-movies],
    which differ in the filter and in the message of the [catch] block. *)
Definition listing (db : DB) (query : Query) (q : ListQuery) (message : string)
    : Response :=
  let page := default 1 (page q) in
  let limit := default 10 (limit q) in
  let sortBy := default "uploadedAt"%string (sortBy q) in
  let sortOrder := default "desc"%string (sortOrder q) in
  match cursor (find (movies db) query) sortBy (direction sortOrder)
          (limit * 1) ((page - 1) * limit) with
  | inr found =>
      let total := countDocuments (movies db) query in
      Res 200 (Page (populate ["username"%string] (users db) <$> found)
                 page (JS.ceil_div (Z.of_nat total) limit) total)
  | inl _ => Res 500 (Message message)
  end.

(** [router.get('/')] *)
Definition router_get_root (db : DB) (q : ListQuery) : Response :=
  let query :=
    if JS.truthy_string (search q)
    then {| q_text := search q; q_title := None; q_uploadedBy := None |}
    else anyDoc in
  listing db query q "Server error while fetching movies".

(** [router.get('/:id')] *)
Definition router_get_id (db : DB) (id : string) : Response :=
  match findById (movies db) id with
  | inr (Some movie) =>
      Res 200 (Document (populate ["username"; "email"]%string (users db) movie))
  | inr None => notFound
  | inl error => catch_id error "Server error while fetching movie"
  end.

(** [...(v && { key: v.trim() })] on a string field. *)
Definition spread_string (v : option string) : option string :=
  if JS.truthy_string v then JS.trim <$> v else None.

(** [...(v && { key: v })] on a number field. *)
Definition spread_number (v : option JS.number) : option JS.number :=
  if JS.truthy_number v then v else None.

(** The document [router.post('/')] builds: [oid] is the [_id] it is
    given, [now] is [new Date()] and [stamp] the time [save] stamps. *)
Definition post_document (oid : ObjectId) (now stamp : Z) (user : ObjectId)
    (title_ description_ : string) (body : MovieFields) : Movie :=
  new_Movie oid (JS.trim title_) (JS.trim description_) user now
    {| f_title := None; f_description := None;
       f_genre := spread_string (f_genre body);
       f_releaseYear := spread_number (f_releaseYear body);
       f_rating := spread_number (f_rating body);
       f_posterUrl := spread_string (f_posterUrl body) |}
    stamp.

(** [router.post('/')] *)
Definition router_post_root (oid : ObjectId) (now stamp : Z) (db : DB)
    (user : ObjectId) (body : MovieFields) : Response * DB :=
  let errors := post_validationResult body in
  match errors with
  | _ :: _ => (Res 400 (Errors errors), db)
  | [] =>
      match f_title body, f_description body with
      | Some title_, Some description_ =>
          let existingMovie :=
            findOne (movies db)
              {| q_text := None; q_title := Some (JS.trim title_);
                 q_uploadedBy := Some user |} in
          match existingMovie with
          | Some _ =>
              (Res 400 (Message "You have already added a movie with this title"), db)
          | None =>
              let movie := post_document oid now stamp user title_ description_ body in
              match save (movies db) movie with
              | inr ms =>
                  (Res 201 (MessageMovie "Movie added successfully"
                              (Some (populate ["username"%string] (users db) movie))),
                   with_movies db ms)
              | inl _ => (Res 500 (Message "Server error while creating movie"), db)
              end
          end
      | _, _ =>
          (* [undefined.trim()] throws *)
          (Res 500 (Message "Server error while creating movie"), db)
      end
  end.

(** The [updates] object [router.put('/:id')] builds:
    [if (v !== undefined) updates.key = v.trim()], or [= v] for a number. *)
Definition put_updates (body : MovieFields) : MovieFields :=
  {| f_title := JS.trim <$> f_title body;
     f_description := JS.trim <$> f_description body;
     f_genre := JS.trim <$> f_genre body;
     f_releaseYear := f_releaseYear body;
     f_rating := f_rating body;
     f_posterUrl := JS.trim <$> f_posterUrl body |}.

(** [router.put('/:id')]; [stamp] is the time the store writes to [updatedAt]. *)
Definition router_put_id (stamp : Z) (db : DB) (user : ObjectId) (id : string)
    (body : MovieFields) : Response * DB :=
  let errors := put_validationResult body in
  match errors with
  | _ :: _ => (Res 400 (Errors errors), db)
  | [] =>
      match findById (movies db) id with
      | inl error => (catch_id error "Server error while updating movie", db)
      | inr None => (notFound, db)
      | inr (Some movie) =>
          if negb (N.eqb (uploadedBy movie) user) then
            (Res 403 (Message "Not authorized to update this movie"), db)
          else
            let updates := put_updates body in
            match findByIdAndUpdate (movies db) id updates stamp with
            | inr (updatedMovie, ms) =>
                (Res 200 (MessageMovie "Movie updated successfully"
                            (populate ["username"%string] (users db) <$> updatedMovie)),
                 with_movies db ms)
            | inl error => (catch_id error "Server error while updating movie", db)
            end
      end
  end.

(** [router.delete('/:id')] *)
Definition router_delete_id (db : DB) (user : ObjectId) (id : string)
    : Response * DB :=
  match findById (movies db) id with
  | inl error => (catch_id error "Server error while deleting movie", db)
  | inr None => (notFound, db)
  | inr (Some movie) =>
      if negb (N.eqb (uploadedBy movie) user) then
        (Res 403 (Message "Not authorized to delete this movie"), db)
      else
        match findByIdAndDelete (movies db) id with
        | inr ms => (Res 200 (Message "Movie deleted successfully"), with_movies db ms)
        | inl error => (catch_id error "Server error while deleting movie", db)
        end
  end.

(** [router.get('/user/my-movies')] *)
Definition router_get_my_movies (db : DB) (user : ObjectId) (q : ListQuery)
    : Response :=
  listing db {| q_text := None; q_title := None; q_uploadedBy := Some user |} q
    "Server error while fetching your movies".

End Model.

(** ** Sample data and a sample analyzer *)

Module Sample.

Definition alice : ObjectId := 1%N.
Definition bob : ObjectId := 2%N.

Definition accounts : gmap ObjectId User :=
  {[ alice := {| username := "alice"; email := "alice@example.org"; password := "$2a$10$a" |};
     bob := {| username := "bob"; email := "bob@example.org"; password := "$2a$10$b" |} ]}.

Definition duneId : string := "0000000000000000000000d1".
Definition arrivalId : string := "0000000000000000000000a2".
(** Well formed, and of no stored movie. *)
Definition missingId : string := "0000000000000000000000ff".
Definition malformedId : string := "not-an-id".

Definition dune : Movie :=
  {| _id := 209%N; title := "Dune"; description := "Desert planet saga";
     uploadedBy := alice; uploadedAt := 1000; genre := Some "Sci-Fi"%string;
     releaseYear := Some (inject_Z 2021); rating := 17 # 2; posterUrl := None;
     createdAt := 1000; updatedAt := 1000 |}.

Definition arrival : Movie :=
  {| _id := 162%N; title := "Arrival"; description := "First contact";
     uploadedBy := alice; uploadedAt := 2000; genre := None;
     releaseYear := None; rating := inject_Z 0; posterUrl := None;
     createdAt := 2000; updatedAt := 2000 |}.

Definition db1 : DB :=
  {| movies := {[ 209%N := dune ]}; users := accounts |}.

Definition db2 : DB :=
  {| movies := {[ 209%N := dune; 162%N := arrival ]}; users := accounts |}.

Definition year : Z := 2025.

(** An analyzer: the maximal runs of ASCII letters and digits, in lower case. *)
Definition isAlnum (c : ascii) : bool :=
  let n := N_of_ascii c in
  ((48 <=? n) && (n <=? 57) || (65 <=? n) && (n <=? 90) || (97 <=? n) && (n <=? 122))%N.

Definition toLowerCase (c : ascii) : ascii :=
  let n := N_of_ascii c in
  if ((65 <=? n) && (n <=? 90))%N then ascii_of_N (n + 32) else c.

Definition flush (cur : string) : list string :=
  match cur with
  | EmptyString => []
  | _ => [cur]
  end.

Fixpoint terms (cur s : string) : list string :=
  match s with
  | EmptyString => flush cur
  | String c r =>
      if isAlnum c then terms (cur +:+ String (toLowerCase c) EmptyString) r
      else flush cur ++ terms EmptyString r
  end.

Definition analyze (s : string) : list string := terms EmptyString s.

(** A sort that leaves the documents as the store enumerates them. *)
Definition natural (key : string) (dir : Z) (l : list Movie) : list Movie := l.

End Sample.

(** ASCII case folding of a string, to state that an analyzer ignores case. *)
Fixpoint lower (s : string) : string :=
  match s with
  | EmptyString => EmptyString
  | String c r => String (Sample.toLowerCase c) (lower r)
  end.

(** 201 characters. *)
Definition longTitle : string :=
  Eval vm_compute in String.concat "" (replicate 201 "x"%string).

(** The document [router.put('/:id')] leaves in place of [m] when the
    update goes through: the setters run on [updates], then the [$set]. *)
Definition updated (stamp : Z) (body : MovieFields) (m : Movie) : Movie :=
  applyUpdate (applySetters (put_updates body)) stamp m.

(** The invariant on stored strings: each equals its own trim. *)
Definition isTrimmed (s : string) : bool := String.eqb (JS.trim s) s.

Definition trimmedDoc (m : Movie) : bool :=
  isTrimmed (title m) && isTrimmed (description m)
  && from_option isTrimmed true (genre m)
  && from_option isTrimmed true (posterUrl m).

Definition trimmedDB (db : DB) : Prop :=
  map_Forall (λ _ m, trimmedDoc m = true) (movies db).

(** The text match against one field: some term of the search string is a
    term of the field. *)
Definition fieldMatch (analyze : string → list string) (s text : string) : bool :=
  existsb (hasTerm (analyze text)) (analyze s).

(** The owner as the listing routes and as getOne embed it. *)
Definition ownerByName (m : Movie) (u : User) : Owner :=
  {| o_id := uploadedBy m; o_username := Some (username u); o_email := None |}.

Definition ownerByNameAndEmail (m : Movie) (u : User) : Owner :=
  {| o_id := uploadedBy m; o_username := Some (username u); o_email := Some (email u) |}.

(** The documents of a listing, as the response shows them. *)
Definition shown (db : DB) (l : list Movie) : list Populated :=
  populate ["username"%string] (users db) <$> l.

(** The movies a search string selects: all of them when it is absent or
    empty, else the ones with a text match on the title or the description. *)
Definition searchHit (analyze : string → list string) (search : option string)
    (m : Movie) : bool :=
  match search with
  | Some (String _ _ as s) =>
      fieldMatch analyze s (title m) || fieldMatch analyze s (description m)
  | _ => true
  end.

Definition ownedBy (user : ObjectId) (m : Movie) : bool := N.eqb (uploadedBy m) user.

(** One request that can write, as a step from a database to the next. The
    movie routes write [movies] only; [users] is written elsewhere (by
    registration), which the last step stands for. *)
Inductive step (currentYear : Z) (analyze : string → list string) : DB → DB → Prop :=
| step_post oid now stamp db user body :
    step currentYear analyze db
      (router_post_root currentYear analyze oid now stamp db user body).2
| step_put stamp db user id body :
    step currentYear analyze db (router_put_id currentYear stamp db user id body).2
| step_delete db user id :
    step currentYear analyze db (router_delete_id db user id).2
| step_users db us :
    step currentYear analyze db {| movies := movies db; users := us |}.

(** The databases requests can lead to, from an empty Movie collection. *)
Inductive reachable (currentYear : Z) (analyze : string → list string) : DB → Prop :=
| reachable_empty us : reachable currentYear analyze {| movies := ∅; users := us |}
| reachable_step db db' :
    reachable currentYear analyze db → step currentYear analyze db db' →
    reachable currentYear analyze db'.

(** Bodies and query strings of the examples. *)
Definition titleOnly (t : string) : MovieFields :=
  {| f_title := Some t; f_description := None; f_genre := None;
     f_releaseYear := None; f_rating := None; f_posterUrl := None |}.

Definition ratingOnly (r : JS.number) : MovieFields :=
  {| f_title := None; f_description := None; f_genre := None;
     f_releaseYear := None; f_rating := Some r; f_posterUrl := None |}.

Definition genreOnly (g : string) : MovieFields :=
  {| f_title := None; f_description := None; f_genre := Some g;
     f_releaseYear := None; f_rating := None; f_posterUrl := None |}.

Definition newMovie (t d : string) : MovieFields :=
  {| f_title := Some t; f_description := Some d; f_genre := None;
     f_releaseYear := None; f_rating := None; f_posterUrl := None |}.

Definition pageOf (p l : Z) (s : option string) : ListQuery :=
  {| page := Some p; limit := Some l; search := s; sortBy := None; sortOrder := None |}.

(** ** The client: the movie card, the movie form and the dashboard *)

Module Client.

(** [truncateText] of the movie card. [text.substring(0, maxLength)] takes a
    negative bound as zero. *)
Definition truncateText (text : string) (maxLength : Z) : string :=
  if Z.of_nat (String.length text) <=? maxLength then text
  else (String.substring 0 (Z.to_nat maxLength) text +:+ "...")%string.

(** The state of the movie form ([MovieFormData]). *)
Record MovieFormData : Type := {
  fd_title : string;
  fd_description : string;
  fd_genre : option string;
  fd_releaseYear : option JS.number;
  fd_rating : option JS.number;
  fd_posterUrl : option string
}.

(** The form of the edit mode, filled from the movie by [useEffect]. The
    movie is the JSON of a stored document. *)
Definition formOf (movie : Movie) : MovieFormData :=
  {| fd_title := title movie;
     fd_description := description movie;
     fd_genre := Some (if JS.truthy_string (genre movie) then default EmptyString (genre movie)
                       else EmptyString);
     fd_releaseYear := releaseYear movie;
     fd_rating := Some (rating movie);
     fd_posterUrl := Some (if JS.truthy_string (posterUrl movie)
                           then default EmptyString (posterUrl movie)
                           else EmptyString) |}.

(** [...(v?.trim() && { key: v.trim() })] *)
Definition clean_string (v : option string) : option string :=
  if JS.truthy_string (JS.trim <$> v) then JS.trim <$> v else None.

(** [cleanedData] of [handleSubmit]. *)
Definition cleanedData (formData : MovieFormData) : MovieFields :=
  {| f_title := Some (JS.trim (fd_title formData));
     f_description := Some (JS.trim (fd_description formData));
     f_genre := clean_string (fd_genre formData);
     f_releaseYear := if JS.truthy_number (fd_releaseYear formData)
                      then fd_releaseYear formData else None;
     f_rating := if JS.truthy_number (fd_rating formData)
                 then fd_rating formData else None;
     f_posterUrl := clean_string (fd_posterUrl formData) |}.

(** [disabled] of the submit button. *)
Definition submitDisabled (isLoading : bool) (formData : MovieFormData) : bool :=
  isLoading
  || negb (JS.truthy_string (Some (JS.trim (fd_title formData))))
  || negb (JS.truthy_string (Some (JS.trim (fd_description formData)))).


(** The three updates of the dashboard's list of movies. *)
Definition handleMovieAdded (newMovie : Populated) (prev : list Populated)
    : list Populated :=
  newMovie :: prev.

Definition handleMovieUpdated (updatedMovie : Populated) (prev : list Populated)
    : list Populated :=
  (λ movie, if N.eqb (_id (doc movie)) (_id (doc updatedMovie)) then updatedMovie else movie)
  <$> prev.

Definition handleMovieDeleted (movieId : ObjectId) (prev : list Populated)
    : list Populated :=
  List.filter (λ movie, negb (N.eqb (_id (doc movie)) movieId)) prev.


End Client.

(** The movies of a listing response, none for any other response. *)
Definition moviesOf (r : Response) : list Populated :=
  match json r with
  | Page ms _ _ _ => ms
  | _ => []
  end.

(** A collection whose documents sit under their own [_id] and pass the
    schema's validators. *)
Definition wellFormedDB (currentYear : Z) (db : DB) : Prop :=
  map_Forall (λ k m, _id m = k ∧ runValidators currentYear (fieldsOf m) = true)
    (movies db).

(** [m] with another [updatedAt]. *)
Definition touched (stamp : Z) (m : Movie) : Movie :=
  {| _id := _id m; title := title m; description := description m;
     uploadedBy := uploadedBy m; uploadedAt := uploadedAt m; genre := genre m;
     releaseYear := releaseYear m; rating := rating m; posterUrl := posterUrl m;
     createdAt := createdAt m; updatedAt := stamp |}.

(** No user owns two movies with the same title. *)
Definition uniqueTitles (db : DB) : Prop :=
  ∀ k1 k2 m1 m2,
    movies db !! k1 = Some m1 → movies db !! k2 = Some m2 →
    uploadedBy m1 = uploadedBy m2 → title m1 = title m2 → k1 = k2.

(** [router.post('/')] with its two awaits on the store told apart: the
    lookup [Movie.findOne] reads the collection as it is in [dbFind], and
    [movie.save()] (and the [populate] after it) works on the database as it
    is by then, [dbSave]. With no write of another request in between, the
    two are one database and this is [router_post_root]. *)
Definition post_between (currentYear : Z) (analyze : string → list string)
    (oid : ObjectId) (now stamp : Z) (dbFind dbSave : DB)
    (user : ObjectId) (body : MovieFields) : Response * DB :=
  let errors := post_validationResult body in
  match errors with
  | _ :: _ => (Res 400 (Errors errors), dbSave)
  | [] =>
      match f_title body, f_description body with
      | Some title_, Some description_ =>
          let existingMovie :=
            findOne analyze (movies dbFind)
              {| q_text := None; q_title := Some (JS.trim title_);
                 q_uploadedBy := Some user |} in
          match existingMovie with
          | Some _ =>
              (Res 400 (Message "You have already added a movie with this title"), dbSave)
          | None =>
              let movie := post_document oid now stamp user title_ description_ body in
              match save currentYear (movies dbSave) movie with
              | inr ms =>
                  (Res 201 (MessageMovie "Movie added successfully"
                              (Some (populate ["username"%string] (users dbSave) movie))),
                   with_movies dbSave ms)
              | inl _ => (Res 500 (Message "Server error while creating movie"), dbSave)
              end
          end
      | _, _ => (Res 500 (Message "Server error while creating movie"), dbSave)
      end
  end.



(** * Properties *)

(** ** Trimming *)

Lemma trimEnd_idem s : JS.trimEnd (JS.trimEnd s) = JS.trimEnd s.
Proof.
  induction s as [|c r IH]; [done|]. simpl.
  destruct (JS.trimEnd r) as [|c' r'] eqn:E.
  - destruct (JS.isWhiteSpace c) eqn:W; simpl; [done|]. by rewrite W.
  - simpl in IH |- *. by rewrite IH.
Qed.

Lemma trimStart_head s :
  JS.trimStart s = EmptyString
  ∨ ∃ c r, JS.trimStart s = String c r ∧ JS.isWhiteSpace c = false.
Proof.
  induction s as [|c r IH]; [by left|]. simpl.
  destruct (JS.isWhiteSpace c) eqn:W; [done|]. right. by exists c, r.
Qed.

Lemma trimStart_trim s : JS.trimStart (JS.trim s) = JS.trim s.
Proof.
  unfold JS.trim. destruct (trimStart_head s) as [->|(c & r & -> & W)]; [done|].
  simpl. destruct (JS.trimEnd r); rewrite ?W; simpl; by rewrite W.
Qed.

Lemma trim_idem s : JS.trim (JS.trim s) = JS.trim s.
Proof.
  unfold JS.trim at 1. rewrite trimStart_trim. unfold JS.trim. apply trimEnd_idem.
Qed.

(** ** The collection as a list *)

Lemma elem_of_allDocs (ms : gmap ObjectId Movie) (m : Movie) :
  m ∈ allDocs ms ↔ ∃ k, ms !! k = Some m.
Proof.
  unfold allDocs. rewrite list_elem_of_fmap. split.
  - intros ([k m'] & -> & Hin). exists k. by apply elem_of_map_to_list.
  - intros (k & Hk). exists (k, m). split; [done|]. by apply elem_of_map_to_list.
Qed.

Lemma elem_of_find analyze (ms : gmap ObjectId Movie) (q : Query) (m : Movie) :
  m ∈ find analyze ms q ↔ (∃ k, ms !! k = Some m) ∧ matches analyze q m = true.
Proof.
  unfold find. rewrite list_elem_of_In, filter_In, <- list_elem_of_In.
  by rewrite elem_of_allDocs.
Qed.

Lemma findOne_is_Some analyze (ms : gmap ObjectId Movie) (q : Query) k m :
  ms !! k = Some m → matches analyze q m = true → is_Some (findOne analyze ms q).
Proof.
  intros Hk Hm. unfold findOne.
  assert (Hin : m ∈ find analyze ms q) by (apply elem_of_find; eauto).
  destruct (find analyze ms q); [by apply not_elem_of_nil in Hin | by eexists].
Qed.

Lemma findOne_is_None analyze (ms : gmap ObjectId Movie) (q : Query) :
  (∀ k m, ms !! k = Some m → matches analyze q m = false) →
  findOne analyze ms q = None.
Proof.
  intros Hno. unfold findOne.
  destruct (find analyze ms q) as [|m l] eqn:E; [done|].
  assert (Hin : m ∈ find analyze ms q) by (rewrite E; left).
  apply elem_of_find in Hin as [[k Hk] Hm]. rewrite (Hno k m Hk) in Hm. done.
Qed.

(** ** The ownership gate and the order of the checks *)

Section Gate.

Variable currentYear : Z.

Lemma put_invalid_body stamp db user id body :
  put_validationResult body ≠ [] →
  router_put_id currentYear stamp db user id body
  = (Res 400 (Errors (put_validationResult body)), db).
Proof.
  intros Hne. unfold router_put_id. by destruct (put_validationResult body).
Qed.

Lemma put_foreign stamp db user id oid m body :
  put_validationResult body = [] →
  castObjectId id = Some oid → movies db !! oid = Some m → uploadedBy m ≠ user →
  router_put_id currentYear stamp db user id body
  = (Res 403 (Message "Not authorized to update this movie"), db).
Proof.
  intros Hv Hid Hm Hne. unfold router_put_id, findById. rewrite Hv, Hid, Hm.
  destruct (N.eqb_spec (uploadedBy m) user); [contradiction | done].
Qed.

Lemma delete_foreign db user id oid m :
  castObjectId id = Some oid → movies db !! oid = Some m → uploadedBy m ≠ user →
  router_delete_id db user id
  = (Res 403 (Message "Not authorized to delete this movie"), db).
Proof.
  intros Hid Hm Hne. unfold router_delete_id, findById. rewrite Hid, Hm.
  destruct (N.eqb_spec (uploadedBy m) user); [contradiction | done].
Qed.

Lemma put_no_document stamp db user id body :
  put_validationResult body = [] →
  (castObjectId id = None ∨ ∃ oid, castObjectId id = Some oid ∧ movies db !! oid = None) →
  router_put_id currentYear stamp db user id body = (notFound, db).
Proof.
  intros Hv H. unfold router_put_id, findById. rewrite Hv.
  destruct H as [-> | (oid & -> & ->)]; done.
Qed.

Lemma delete_no_document db user id :
  (castObjectId id = None ∨ ∃ oid, castObjectId id = Some oid ∧ movies db !! oid = None) →
  router_delete_id db user id = (notFound, db).
Proof.
  intros H. unfold router_delete_id, findById.
  destruct H as [-> | (oid & -> & ->)]; done.
Qed.

Lemma get_no_document db id :
  (castObjectId id = None ∨ ∃ oid, castObjectId id = Some oid ∧ movies db !! oid = None) →
  router_get_id db id = notFound.
Proof.
  intros H. unfold router_get_id, findById.
  destruct H as [-> | (oid & -> & ->)]; done.
Qed.

(** C1 (as amended). A movie whose [uploadedBy] is A cannot be deleted or
    updated by another user B, and the database is left as it was: delete
    answers 403; update answers 403 when the body passes the route's
    validation chain, and 400 with the validation errors when it does not,
    because that chain runs before the movie is looked up. *)
Theorem foreign_mutation_refused stamp db (A B : ObjectId) id oid m body :
  castObjectId id = Some oid → movies db !! oid = Some m →
  uploadedBy m = A → B ≠ A →
  router_delete_id db B id
  = (Res 403 (Message "Not authorized to delete this movie"), db)
  ∧ (put_validationResult body = [] →
     router_put_id currentYear stamp db B id body
     = (Res 403 (Message "Not authorized to update this movie"), db))
  ∧ (put_validationResult body ≠ [] →
     router_put_id currentYear stamp db B id body
     = (Res 400 (Errors (put_validationResult body)), db)).
Proof.
  intros Hid Hm HA HB. subst A. split; [|split].
  - by eapply delete_foreign.
  - intros Hv. by eapply put_foreign.
  - apply put_invalid_body.
Qed.

(** C6 (as amended). A malformed id is answered as an id of no movie is:
    404 "Movie not found" from getOne and delete, and from update when the
    body passes the validation chain; when it does not, update answers 400
    for a malformed id and for an id of no movie alike. *)
Theorem malformed_id_is_not_found stamp db user id id' oid' body :
  castObjectId id = None →
  castObjectId id' = Some oid' → movies db !! oid' = None →
  router_get_id db id = notFound
  ∧ router_get_id db id' = notFound
  ∧ router_delete_id db user id = (notFound, db)
  ∧ router_delete_id db user id' = (notFound, db)
  ∧ router_put_id currentYear stamp db user id body
    = router_put_id currentYear stamp db user id' body
  ∧ (put_validationResult body = [] →
     router_put_id currentYear stamp db user id body = (notFound, db))
  ∧ (put_validationResult body ≠ [] →
     router_put_id currentYear stamp db user id body
     = (Res 400 (Errors (put_validationResult body)), db)).
Proof.
  intros Hid Hid' Hno.
  repeat split.
  - apply get_no_document; by left.
  - apply get_no_document; right; eauto.
  - apply delete_no_document; by left.
  - apply delete_no_document; right; eauto.
  - destruct (put_validationResult body) as [|e l] eqn:E.
    + rewrite !put_no_document; eauto.
    + rewrite !put_invalid_body; congruence.
  - intros Hv. apply put_no_document; auto.
  - apply put_invalid_body.
Qed.

End Gate.

Lemma foreign_mutation_refused_witness :
  (castObjectId Sample.duneId = Some 209%N
   ∧ movies Sample.db1 !! 209%N = Some Sample.dune
   ∧ uploadedBy Sample.dune = Sample.alice ∧ Sample.bob ≠ Sample.alice)
  ∧ router_delete_id Sample.db1 Sample.bob Sample.duneId
    = (Res 403 (Message "Not authorized to delete this movie"), Sample.db1)
  ∧ router_put_id Sample.year 7 Sample.db1 Sample.bob Sample.duneId (titleOnly "Dune II")
    = (Res 403 (Message "Not authorized to update this movie"), Sample.db1).
Proof.
  assert (H1 : castObjectId Sample.duneId = Some 209%N) by reflexivity.
  assert (H2 : movies Sample.db1 !! 209%N = Some Sample.dune) by reflexivity.
  assert (H3 : uploadedBy Sample.dune = Sample.alice) by reflexivity.
  assert (H4 : Sample.bob ≠ Sample.alice) by discriminate.
  split; [done|].
  destruct (foreign_mutation_refused Sample.year 7 Sample.db1 Sample.alice Sample.bob
              Sample.duneId 209%N Sample.dune (titleOnly "Dune II") H1 H2 H3 H4)
    as (Hd & Hu & _).
  split; [exact Hd | apply Hu; reflexivity].
Defined.

(** C1, as stated, fails: bob updates alice's movie with an empty title and
    is answered 400 with a validation error, not 403. *)
Lemma foreign_update_invalid_body_is_400 :
  movies Sample.db1 !! 209%N = Some Sample.dune
  ∧ castObjectId Sample.duneId = Some 209%N
  ∧ uploadedBy Sample.dune = Sample.alice ∧ Sample.bob ≠ Sample.alice
  ∧ router_put_id Sample.year 7 Sample.db1 Sample.bob Sample.duneId (titleOnly "")
    = (Res 400 (Errors [("title", "Title cannot be empty")%string]), Sample.db1)
  ∧ status (router_put_id Sample.year 7 Sample.db1 Sample.bob Sample.duneId
              (titleOnly "")).1 ≠ 403.
Proof. repeat split; try reflexivity; discriminate. Qed.

Lemma malformed_id_is_not_found_witness :
  (castObjectId Sample.malformedId = None
   ∧ castObjectId Sample.missingId = Some 255%N
   ∧ movies Sample.db1 !! 255%N = None)
  ∧ router_get_id Sample.db1 Sample.malformedId = notFound
  ∧ router_delete_id Sample.db1 Sample.alice Sample.malformedId = (notFound, Sample.db1)
  ∧ router_put_id Sample.year 7 Sample.db1 Sample.alice Sample.malformedId
      (titleOnly "Dune II") = (notFound, Sample.db1).
Proof.
  assert (H1 : castObjectId Sample.malformedId = None) by reflexivity.
  assert (H2 : castObjectId Sample.missingId = Some 255%N) by reflexivity.
  assert (H3 : movies Sample.db1 !! 255%N = None) by reflexivity.
  split; [done|].
  destruct (malformed_id_is_not_found Sample.year 7 Sample.db1 Sample.alice
              Sample.malformedId Sample.missingId 255%N (titleOnly "Dune II") H1 H2 H3)
    as (Hg & _ & Hd & _ & _ & Hu & _).
  split; [exact Hg | split; [exact Hd | apply Hu; reflexivity]].
Defined.

(** C6, as stated, fails: an update with a malformed id and a title over 200
    characters is answered 400 with a validation error, not 404. *)
Lemma malformed_id_invalid_body_is_400 :
  castObjectId Sample.malformedId = None
  ∧ router_put_id Sample.year 7 Sample.db1 Sample.alice Sample.malformedId
      (titleOnly longTitle)
    = (Res 400 (Errors [("title", "Title must be less than 200 characters")%string]),
       Sample.db1)
  ∧ status (router_put_id Sample.year 7 Sample.db1 Sample.alice Sample.malformedId
              (titleOnly longTitle)).1 ≠ 404.
Proof. repeat split; try reflexivity; discriminate. Qed.

(** ** What each mutating route can do to the collection *)

Lemma check_nil path ok msg v : Validator.check path ok msg v = [] ↔ ok v = true.
Proof. unfold Validator.check. destruct (ok v); split; congruence. Qed.

Lemma optional_nil path ok msg v :
  Validator.optional path ok msg v = [] ↔ v = None ∨ ok v = true.
Proof.
  unfold Validator.optional. destruct v; [rewrite check_nil|]; naive_solver.
Qed.

Lemma notEmpty_true v : Validator.notEmpty v = true ↔ ∃ s, v = Some s ∧ s ≠ EmptyString.
Proof.
  unfold Validator.notEmpty, Validator.toString.
  destruct v as [[|c s]|]; simpl; split; try discriminate.
  - by intros (s & [= <-] & Hne).
  - intros _. by eexists.
  - done.
  - by intros (s & [=] & _).
Qed.

Lemma isLength_max_Some n s :
  Validator.isLength_max n (Some s) = true ↔ (String.length s ≤ n)%nat.
Proof. unfold Validator.isLength_max, Validator.toString. simpl. apply Nat.leb_le. Qed.

Lemma post_valid_inv body :
  post_validationResult body = [] →
  ∃ t d, f_title body = Some t ∧ f_description body = Some d
         ∧ t ≠ EmptyString ∧ d ≠ EmptyString
         ∧ (String.length t ≤ 200)%nat ∧ (String.length d ≤ 1000)%nat.
Proof.
  unfold post_validationResult. rewrite !app_nil, !check_nil, !notEmpty_true.
  intros ((t & Ht & Hne) & (d & Hd & Hne') & Hlt & Hld).
  rewrite Ht in Hlt. rewrite Hd in Hld. apply isLength_max_Some in Hlt, Hld.
  by exists t, d.
Qed.

Lemma put_valid_inv body :
  put_validationResult body = [] ↔
  (∀ t, f_title body = Some t → t ≠ EmptyString ∧ (String.length t ≤ 200)%nat)
  ∧ (∀ d, f_description body = Some d → d ≠ EmptyString ∧ (String.length d ≤ 1000)%nat).
Proof.
  unfold put_validationResult. rewrite !app_nil, !optional_nil, !notEmpty_true.
  destruct (f_title body) as [t|], (f_description body) as [d|];
    rewrite ?isLength_max_Some; naive_solver.
Qed.

Section Outcomes.

Variable currentYear : Z.
Variable analyze : string → list string.

Lemma put_owner_ok stamp db user id oid m body :
  put_validationResult body = [] →
  castObjectId id = Some oid → movies db !! oid = Some m → uploadedBy m = user →
  runValidators currentYear (applySetters (put_updates body)) = true →
  router_put_id currentYear stamp db user id body
  = (Res 200 (MessageMovie "Movie updated successfully"
                (Some (populate ["username"%string] (users db) (updated stamp body m)))),
     with_movies db (<[oid := updated stamp body m]> (movies db))).
Proof.
  intros Hv Hid Hm Hu Hr. unfold router_put_id, findById, findByIdAndUpdate.
  rewrite Hv, Hid, Hm, Hr. subst user. by rewrite N.eqb_refl.
Qed.

Lemma put_owner_schema_error stamp db user id oid m body :
  put_validationResult body = [] →
  castObjectId id = Some oid → movies db !! oid = Some m → uploadedBy m = user →
  runValidators currentYear (applySetters (put_updates body)) = false →
  router_put_id currentYear stamp db user id body
  = (Res 500 (Message "Server error while updating movie"), db).
Proof.
  intros Hv Hid Hm Hu Hr. unfold router_put_id, findById, findByIdAndUpdate.
  rewrite Hv, Hid, Hm, Hr. subst user. by rewrite N.eqb_refl.
Qed.

(** An update leaves the database as it was, or it is the owner's and
    rewrites the one document. *)
Lemma put_outcome stamp db user id body :
  (router_put_id currentYear stamp db user id body).2 = db
  ∨ ∃ oid m, castObjectId id = Some oid ∧ movies db !! oid = Some m
      ∧ uploadedBy m = user ∧ put_validationResult body = []
      ∧ runValidators currentYear (applySetters (put_updates body)) = true
      ∧ router_put_id currentYear stamp db user id body
        = (Res 200 (MessageMovie "Movie updated successfully"
                      (Some (populate ["username"%string] (users db)
                               (updated stamp body m)))),
           with_movies db (<[oid := updated stamp body m]> (movies db))).
Proof.
  destruct (put_validationResult body) as [|e l] eqn:Hv.
  2:{ left. rewrite put_invalid_body; [done | congruence]. }
  destruct (castObjectId id) as [oid|] eqn:Hid.
  2:{ left. rewrite put_no_document; auto. }
  destruct (movies db !! oid) as [m|] eqn:Hm.
  2:{ left. rewrite put_no_document; eauto. }
  destruct (N.eq_dec (uploadedBy m) user) as [Hu|Hu].
  2:{ left. by erewrite put_foreign. }
  destruct (runValidators currentYear (applySetters (put_updates body))) eqn:Hr.
  - right. exists oid, m. repeat split; auto. by apply put_owner_ok.
  - left. by erewrite put_owner_schema_error.
Qed.

Lemma post_created oid now stamp db user body t d :
  post_validationResult body = [] →
  f_title body = Some t → f_description body = Some d →
  (∀ k m, movies db !! k = Some m → uploadedBy m = user → title m ≠ JS.trim t) →
  runValidators currentYear (fieldsOf (post_document oid now stamp user t d body)) = true →
  movies db !! oid = None →
  router_post_root currentYear analyze oid now stamp db user body
  = (Res 201 (MessageMovie "Movie added successfully"
                (Some (populate ["username"%string] (users db)
                         (post_document oid now stamp user t d body)))),
     with_movies db (<[oid := post_document oid now stamp user t d body]> (movies db))).
Proof.
  intros Hv Ht Hd Hnew Hr Hfresh. unfold router_post_root, save.
  rewrite Hv, Ht, Hd, findOne_is_None, Hr; [simpl; by rewrite Hfresh|].
  intros k m Hk. unfold matches; simpl.
  destruct (String.eqb_spec (title m) (JS.trim t)) as [He|]; [|done].
  destruct (N.eqb_spec (uploadedBy m) user) as [Hu|]; [|done].
  by destruct (Hnew k m Hk Hu).
Qed.

Lemma post_conflict oid now stamp db user body t k m :
  post_validationResult body = [] → f_title body = Some t →
  movies db !! k = Some m → uploadedBy m = user → title m = JS.trim t →
  router_post_root currentYear analyze oid now stamp db user body
  = (Res 400 (Message "You have already added a movie with this title"), db).
Proof.
  intros Hv Ht Hk Hu He. unfold router_post_root.
  destruct (post_valid_inv body Hv) as (t' & d & Ht' & Hd & _).
  rewrite Hv, Ht, Hd.
  destruct (findOne_is_Some analyze (movies db)
              {| q_text := None; q_title := Some (JS.trim t); q_uploadedBy := Some user |}
              k m Hk) as [x ->]; [|done].
  unfold matches; simpl. rewrite He, Hu, String.eqb_refl, N.eqb_refl. done.
Qed.

(** A create leaves the database as it was, or inserts the one document
    it built under a fresh [_id]. *)
Lemma post_outcome oid now stamp db user body :
  (router_post_root currentYear analyze oid now stamp db user body).2 = db
  ∨ ∃ t d, f_title body = Some t ∧ f_description body = Some d
      ∧ movies db !! oid = None
      ∧ router_post_root currentYear analyze oid now stamp db user body
        = (Res 201 (MessageMovie "Movie added successfully"
                      (Some (populate ["username"%string] (users db)
                               (post_document oid now stamp user t d body)))),
           with_movies db
             (<[oid := post_document oid now stamp user t d body]> (movies db))).
Proof.
  unfold router_post_root, save.
  destruct (post_validationResult body); [|by left].
  destruct (f_title body) as [t|]; [|by left].
  destruct (f_description body) as [d|]; [|by left].
  destruct (findOne _ _ _); [by left|].
  destruct (runValidators _ _); [|by left].
  change (_id (post_document oid now stamp user t d body)) with oid.
  destruct (movies db !! oid) eqn:Hf; [by left|].
  right. by exists t, d.
Qed.

(** A delete leaves the database as it was, or it is the owner's and
    removes the one document. *)
Lemma delete_outcome db user id :
  (router_delete_id db user id).2 = db
  ∨ ∃ oid m, castObjectId id = Some oid ∧ movies db !! oid = Some m
      ∧ uploadedBy m = user
      ∧ router_delete_id db user id
        = (Res 200 (Message "Movie deleted successfully"),
           with_movies db (delete oid (movies db))).
Proof.
  unfold router_delete_id, findById, findByIdAndDelete.
  destruct (castObjectId id) as [oid|] eqn:Hid; [|by left].
  destruct (movies db !! oid) as [m|] eqn:Hm; [|by left].
  destruct (N.eqb_spec (uploadedBy m) user); [|by left].
  right. by exists oid, m.
Qed.

End Outcomes.

(** ** Duplicate titles *)

(** C2. The duplicate-title check is made by create and not by update.
    (1) A create whose body passes the validation chain is answered 400
    "You have already added a movie with this title", and stores nothing,
    when the user owns a movie whose stored title is the trimmed new title.
    (2) Another user B creating a title that A owns is answered 201 and the
    movie is stored (B owning no such title, the document passing the schema
    and its [_id] being fresh). (3) An update by the owner goes through
    whatever the titles of the owner's other movies: it can leave two movies
    of one owner with the same title. *)
Theorem duplicate_title_checked_on_create_only currentYear analyze :
  (∀ oid now stamp db user body t k m,
     post_validationResult body = [] → f_title body = Some t →
     movies db !! k = Some m → uploadedBy m = user → title m = JS.trim t →
     router_post_root currentYear analyze oid now stamp db user body
     = (Res 400 (Message "You have already added a movie with this title"), db))
  ∧ (∀ oid now stamp db A B body t d kA mA,
       movies db !! kA = Some mA → uploadedBy mA = A → title mA = JS.trim t →
       B ≠ A →
       post_validationResult body = [] →
       f_title body = Some t → f_description body = Some d →
       (∀ k m, movies db !! k = Some m → uploadedBy m = B → title m ≠ JS.trim t) →
       runValidators currentYear (fieldsOf (post_document oid now stamp B t d body)) = true →
       movies db !! oid = None →
       ∃ db' p,
         router_post_root currentYear analyze oid now stamp db B body
         = (Res 201 (MessageMovie "Movie added successfully" (Some p)), db')
         ∧ movies db' !! oid = Some (doc p)
         ∧ uploadedBy (doc p) = B ∧ title (doc p) = JS.trim t
         ∧ movies db' !! kA = Some mA)
  ∧ (∀ stamp db user id oid m k2 m2 body t,
       put_validationResult body = [] → f_title body = Some t →
       castObjectId id = Some oid → movies db !! oid = Some m → uploadedBy m = user →
       k2 ≠ oid → movies db !! k2 = Some m2 → uploadedBy m2 = user →
       title m2 = JS.trim t →
       runValidators currentYear (applySetters (put_updates body)) = true →
       ∃ db' m',
         router_put_id currentYear stamp db user id body
         = (Res 200 (MessageMovie "Movie updated successfully"
                       (Some (populate ["username"%string] (users db) m'))), db')
         ∧ movies db' !! oid = Some m' ∧ movies db' !! k2 = Some m2
         ∧ uploadedBy m' = user ∧ uploadedBy m2 = user ∧ title m' = title m2).
Proof.
  split; [|split].
  - intros. by eapply post_conflict.
  - intros oid now stamp db A B body t d kA mA HkA HA HtA HAB Hv Ht Hd Hnone Hr Hfresh.
    eexists _, _. split; [by apply post_created|]. simpl.
    rewrite lookup_insert_eq. repeat split; [apply trim_idem|].
    rewrite lookup_insert_ne; [done|]. intros ->. congruence.
  - intros stamp db user id oid m k2 m2 body t Hv Ht Hid Hm Hu Hne Hk2 Hu2 Ht2 Hr.
    eexists _, _. split; [by apply put_owner_ok|]. simpl.
    rewrite lookup_insert_eq, lookup_insert_ne by done. repeat split; try done.
    rewrite Ht, Ht2. simpl. apply trim_idem.
Qed.

Lemma duplicate_title_checked_on_create_only_witness :
  (* alice, who owns "Dune", creates " Dune " *)
  router_post_root Sample.year Sample.analyze 300%N 5000 5001 Sample.db1 Sample.alice
    (newMovie " Dune " "Again")
  = (Res 400 (Message "You have already added a movie with this title"), Sample.db1)
  (* bob creates "Dune" *)
  ∧ (∃ db' p,
       router_post_root Sample.year Sample.analyze 300%N 5000 5001 Sample.db1 Sample.bob
         (newMovie "Dune" "The other one")
       = (Res 201 (MessageMovie "Movie added successfully" (Some p)), db')
       ∧ movies db' !! 300%N = Some (doc p)
       ∧ uploadedBy (doc p) = Sample.bob ∧ title (doc p) = JS.trim "Dune"
       ∧ movies db' !! 209%N = Some Sample.dune)
  (* alice renames "Arrival" to "Dune" *)
  ∧ (∃ db' m',
       router_put_id Sample.year 7 Sample.db2 Sample.alice Sample.arrivalId (titleOnly "Dune")
       = (Res 200 (MessageMovie "Movie updated successfully"
                     (Some (populate ["username"%string] (users Sample.db2) m'))), db')
       ∧ movies db' !! 162%N = Some m' ∧ movies db' !! 209%N = Some Sample.dune
       ∧ uploadedBy m' = Sample.alice ∧ uploadedBy Sample.dune = Sample.alice
       ∧ title m' = title Sample.dune).
Proof.
  destruct (duplicate_title_checked_on_create_only Sample.year Sample.analyze)
    as (Hconflict & Hother & Hupdate).
  split; [|split].
  - apply (Hconflict 300%N 5000 5001 Sample.db1 Sample.alice (newMovie " Dune " "Again")
             " Dune "%string 209%N Sample.dune); reflexivity.
  - apply (Hother 300%N 5000 5001 Sample.db1 Sample.alice Sample.bob
             (newMovie "Dune" "The other one") "Dune"%string "The other one"%string
             209%N Sample.dune); try reflexivity; try discriminate.
    intros k m Hk Hu. change (movies Sample.db1) with ({[209%N := Sample.dune]} : gmap ObjectId Movie) in Hk.
    apply lookup_singleton_Some in Hk as [_ <-]. discriminate Hu.
  - apply (Hupdate 7 Sample.db2 Sample.alice Sample.arrivalId 162%N Sample.arrival
             209%N Sample.dune (titleOnly "Dune") "Dune"%string);
      try reflexivity; discriminate.
Defined.

(** ** Bounds on update *)

(** C3 (the code at the inputs where it departs from the claim). An update
    by the owner whose title or description is over its length is answered
    400 with the validation errors; one that passes that chain and whose
    releaseYear or rating is out of range is refused by the schema's
    validators, and the handler answers 500 "Server error while updating
    movie". Nothing is written either way. *)
Theorem update_out_of_range currentYear stamp db user id oid m body :
  castObjectId id = Some oid → movies db !! oid = Some m → uploadedBy m = user →
  ((∃ t, f_title body = Some t ∧ (200 < String.length t)%nat)
   ∨ (∃ d, f_description body = Some d ∧ (1000 < String.length d)%nat) →
   router_put_id currentYear stamp db user id body
   = (Res 400 (Errors (put_validationResult body)), db))
  ∧ (put_validationResult body = [] →
     (∃ y, f_releaseYear body = Some y ∧ minmax 1900 (currentYear + 5) y = false)
     ∨ (∃ r, f_rating body = Some r ∧ minmax 0 10 r = false) →
     router_put_id currentYear stamp db user id body
     = (Res 500 (Message "Server error while updating movie"), db)).
Proof.
  intros Hid Hm Hu. split.
  - intros Hlong. apply put_invalid_body. rewrite put_valid_inv. intros [Ht Hd].
    destruct Hlong as [(t & Hs & Hl) | (d & Hs & Hl)];
      [apply Ht in Hs | apply Hd in Hs]; lia.
  - intros Hv Hout. eapply put_owner_schema_error; eauto.
    unfold runValidators, applySetters, put_updates; simpl.
    destruct Hout as [(y & -> & Hb) | (r & -> & Hb)]; simpl; rewrite Hb;
      rewrite ?andb_false_r; done.
Qed.

Lemma update_out_of_range_witness :
  router_put_id Sample.year 7 Sample.db1 Sample.alice Sample.duneId (titleOnly longTitle)
  = (Res 400 (Errors [("title", "Title must be less than 200 characters")%string]),
     Sample.db1)
  ∧ router_put_id Sample.year 7 Sample.db1 Sample.alice Sample.duneId
      (ratingOnly (inject_Z 11))
    = (Res 500 (Message "Server error while updating movie"), Sample.db1).
Proof.
  split.
  - apply (update_out_of_range Sample.year 7 Sample.db1 Sample.alice Sample.duneId 209%N
             Sample.dune (titleOnly longTitle)); try reflexivity.
    left. exists longTitle. split; [reflexivity | vm_compute; lia].
  - apply (update_out_of_range Sample.year 7 Sample.db1 Sample.alice Sample.duneId 209%N
             Sample.dune (ratingOnly (inject_Z 11))); try reflexivity.
    right. exists (inject_Z 11). split; reflexivity.
Defined.

(** ** Partial updates *)

Lemma updated_absent stamp body m :
  _id (updated stamp body m) = _id m
  ∧ uploadedBy (updated stamp body m) = uploadedBy m
  ∧ uploadedAt (updated stamp body m) = uploadedAt m
  ∧ createdAt (updated stamp body m) = createdAt m
  ∧ (f_title body = None → title (updated stamp body m) = title m)
  ∧ (f_description body = None → description (updated stamp body m) = description m)
  ∧ (f_genre body = None → genre (updated stamp body m) = genre m)
  ∧ (f_releaseYear body = None → releaseYear (updated stamp body m) = releaseYear m)
  ∧ (f_rating body = None → rating (updated stamp body m) = rating m)
  ∧ (f_posterUrl body = None → posterUrl (updated stamp body m) = posterUrl m).
Proof. unfold updated; simpl. repeat split; by intros ->. Qed.

Lemma updated_present stamp body m :
  (∀ t, f_title body = Some t → title (updated stamp body m) = JS.trim t)
  ∧ (∀ d, f_description body = Some d → description (updated stamp body m) = JS.trim d)
  ∧ (∀ g, f_genre body = Some g → genre (updated stamp body m) = Some (JS.trim g))
  ∧ (∀ y, f_releaseYear body = Some y → releaseYear (updated stamp body m) = Some y)
  ∧ (∀ r, f_rating body = Some r → rating (updated stamp body m) = r)
  ∧ (∀ p, f_posterUrl body = Some p → posterUrl (updated stamp body m) = Some (JS.trim p)).
Proof.
  unfold updated; simpl. repeat split; intros x ->; simpl; by rewrite ?trim_idem.
Qed.

(** C4 (as amended). Update goes by the presence of a field. (1) Whatever
    the call, a field absent from the body is left as it was in every stored
    movie, and so are [_id], [uploadedBy], [uploadedAt] and [createdAt].
    (2) When the owner's update goes through, each field present in the body
    is overwritten with the supplied value (trimmed, for a string); an
    explicit empty string for genre or posterUrl is stored as the empty
    string. (3) An explicit empty string for title or description is not
    taken as absent either: the call is answered 400 and nothing is
    written. *)
Theorem update_field_presence currentYear stamp db user id body :
  let r := router_put_id currentYear stamp db user id body in
  (∀ k m, movies db !! k = Some m →
     ∃ m', movies r.2 !! k = Some m'
       ∧ _id m' = _id m ∧ uploadedBy m' = uploadedBy m
       ∧ uploadedAt m' = uploadedAt m ∧ createdAt m' = createdAt m
       ∧ (f_title body = None → title m' = title m)
       ∧ (f_description body = None → description m' = description m)
       ∧ (f_genre body = None → genre m' = genre m)
       ∧ (f_releaseYear body = None → releaseYear m' = releaseYear m)
       ∧ (f_rating body = None → rating m' = rating m)
       ∧ (f_posterUrl body = None → posterUrl m' = posterUrl m))
  ∧ (∀ oid m,
       castObjectId id = Some oid → movies db !! oid = Some m → uploadedBy m = user →
       put_validationResult body = [] →
       runValidators currentYear (applySetters (put_updates body)) = true →
       ∃ m', status r.1 = 200 ∧ movies r.2 !! oid = Some m'
         ∧ (∀ t, f_title body = Some t → title m' = JS.trim t)
         ∧ (∀ d, f_description body = Some d → description m' = JS.trim d)
         ∧ (∀ g, f_genre body = Some g → genre m' = Some (JS.trim g))
         ∧ (∀ y, f_releaseYear body = Some y → releaseYear m' = Some y)
         ∧ (∀ q, f_rating body = Some q → rating m' = q)
         ∧ (∀ p, f_posterUrl body = Some p → posterUrl m' = Some (JS.trim p))
         ∧ (f_genre body = Some EmptyString → genre m' = Some EmptyString)
         ∧ (f_posterUrl body = Some EmptyString → posterUrl m' = Some EmptyString))
  ∧ (f_title body = Some EmptyString ∨ f_description body = Some EmptyString →
     status r.1 = 400 ∧ r.2 = db).
Proof.
  intros r. subst r. split; [|split].
  - intros k m Hk.
    destruct (put_outcome currentYear stamp db user id body)
      as [-> | (oid & m0 & _ & Hm0 & _ & _ & _ & ->)].
    { exists m. repeat split; done. }
    simpl. destruct (decide (oid = k)) as [->|Hne].
    + rewrite lookup_insert_eq. exists (updated stamp body m0).
      assert (m0 = m) as -> by congruence.
      split; [done | apply updated_absent].
    + rewrite lookup_insert_ne by done. exists m. repeat split; done.
  - intros oid m Hid Hm Hu Hv Hr.
    rewrite (put_owner_ok currentYear stamp db user id oid m body Hv Hid Hm Hu Hr).
    simpl. rewrite lookup_insert_eq. exists (updated stamp body m).
    destruct (updated_present stamp body m) as (Ht & Hd & Hg & Hy & Hq & Hp).
    repeat split; try done.
    + intros Hg'. by rewrite (Hg _ Hg').
    + intros Hp'. by rewrite (Hp _ Hp').
  - intros Hempty. rewrite put_invalid_body; [done|].
    rewrite put_valid_inv. intros [Ht Hd].
    destruct Hempty as [H|H]; [apply Ht in H | apply Hd in H]; by destruct H.
Qed.

Lemma update_field_presence_witness :
  (* alice sends only a rating *)
  (∃ m', movies (router_put_id Sample.year 7 Sample.db1 Sample.alice Sample.duneId
                   (ratingOnly (inject_Z 9))).2 !! 209%N = Some m'
     ∧ rating m' = inject_Z 9
     ∧ title m' = "Dune"%string ∧ description m' = "Desert planet saga"%string
     ∧ genre m' = Some "Sci-Fi"%string)
  (* alice sends an empty genre *)
  ∧ (∃ m', status (router_put_id Sample.year 7 Sample.db1 Sample.alice Sample.duneId
                     (genreOnly "")).1 = 200
       ∧ movies (router_put_id Sample.year 7 Sample.db1 Sample.alice Sample.duneId
                   (genreOnly "")).2 !! 209%N = Some m'
       ∧ genre m' = Some EmptyString).
Proof.
  split.
  - destruct (update_field_presence Sample.year 7 Sample.db1 Sample.alice Sample.duneId
                (ratingOnly (inject_Z 9))) as (_ & Hset & _).
    destruct (Hset 209%N Sample.dune) as (m' & _ & Hm' & _ & _ & _ & _ & Hq & _);
      try reflexivity.
    destruct (update_field_presence Sample.year 7 Sample.db1 Sample.alice Sample.duneId
                (ratingOnly (inject_Z 9))) as (Hframe & _ & _).
    destruct (Hframe 209%N Sample.dune) as (m'' & Hm'' & _ & _ & _ & _ & Ht & Hd & Hg & _);
      [reflexivity|].
    exists m'. assert (m'' = m') as -> by congruence.
    repeat split; [done | by apply Hq | by apply Ht | by apply Hd | by apply Hg].
  - destruct (update_field_presence Sample.year 7 Sample.db1 Sample.alice Sample.duneId
                (genreOnly "")) as (_ & Hset & _).
    destruct (Hset 209%N Sample.dune) as (m' & Hs & Hm' & _ & _ & _ & _ & _ & _ & Hg & _);
      try reflexivity.
    exists m'. split; [exact Hs | split; [exact Hm' | by apply Hg]].
Defined.

(** C4, as stated, fails for title (and description): alice's update with an
    explicit empty title is answered 400 and the stored title stays "Dune". *)
Lemma explicit_empty_title_not_written :
  movies Sample.db1 !! 209%N = Some Sample.dune
  ∧ uploadedBy Sample.dune = Sample.alice
  ∧ f_title (titleOnly "") = Some EmptyString
  ∧ router_put_id Sample.year 7 Sample.db1 Sample.alice Sample.duneId (titleOnly "")
    = (Res 400 (Errors [("title", "Title cannot be empty")%string]), Sample.db1)
  ∧ title <$> movies (router_put_id Sample.year 7 Sample.db1 Sample.alice Sample.duneId
                        (titleOnly "")).2 !! 209%N = Some "Dune"%string
  ∧ title <$> movies (router_put_id Sample.year 7 Sample.db1 Sample.alice Sample.duneId
                        (titleOnly "")).2 !! 209%N ≠ Some EmptyString.
Proof. repeat split; try reflexivity; discriminate. Qed.

(** ** Falsy optional fields at creation *)

Lemma router_post_root_ext currentYear analyze oid now stamp db user b b' :
  f_title b = f_title b' → f_description b = f_description b' →
  spread_string (f_genre b) = spread_string (f_genre b') →
  spread_number (f_releaseYear b) = spread_number (f_releaseYear b') →
  spread_number (f_rating b) = spread_number (f_rating b') →
  spread_string (f_posterUrl b) = spread_string (f_posterUrl b') →
  router_post_root currentYear analyze oid now stamp db user b
  = router_post_root currentYear analyze oid now stamp db user b'.
Proof.
  intros Ht Hd Hg Hy Hr Hp.
  unfold router_post_root, post_validationResult, post_document.
  by rewrite Ht, Hd, Hg, Hy, Hr, Hp.
Qed.

Lemma spread_string_falsy v : JS.truthy_string v = false → spread_string v = None.
Proof. unfold spread_string. by intros ->. Qed.

Lemma spread_number_falsy v : JS.truthy_number v = false → spread_number v = None.
Proof. unfold spread_number. by intros ->. Qed.

Lemma post_created_inv currentYear analyze oid now stamp db user body message created db' :
  router_post_root currentYear analyze oid now stamp db user body
  = (Res 201 (MessageMovie message (Some created)), db') →
  ∃ t d, f_title body = Some t ∧ f_description body = Some d
    ∧ created = populate ["username"%string] (users db)
                  (post_document oid now stamp user t d body)
    ∧ db' = with_movies db
              (<[oid := post_document oid now stamp user t d body]> (movies db)).
Proof.
  unfold router_post_root, save.
  destruct (post_validationResult body); [|discriminate].
  destruct (f_title body) as [t|]; [|discriminate].
  destruct (f_description body) as [d|]; [|discriminate].
  destruct (findOne _ _ _); [discriminate|].
  destruct (runValidators _ _); [|discriminate].
  destruct (movies db !! _); [discriminate|].
  intros [= _ <- <-]. by exists t, d.
Qed.

(** C8. At creation a falsy value of genre, releaseYear, rating or posterUrl
    ([undefined], the empty string, zero) is the same as no value: the
    response and the database are those of the request without the field.
    When the movie is created with a falsy rating, the stored rating is the
    schema's default 0; with a falsy genre or posterUrl, the stored document
    has none. *)
Theorem create_falsy_is_omitted currentYear analyze oid now stamp db user t d g y r p :
  let post := router_post_root currentYear analyze oid now stamp db user in
  (JS.truthy_string g = false → post (Fields t d g y r p) = post (Fields t d None y r p))
  ∧ (JS.truthy_number y = false → post (Fields t d g y r p) = post (Fields t d g None r p))
  ∧ (JS.truthy_number r = false → post (Fields t d g y r p) = post (Fields t d g y None p))
  ∧ (JS.truthy_string p = false → post (Fields t d g y r p) = post (Fields t d g y r None))
  ∧ (∀ message created db',
       post (Fields t d g y r p) = (Res 201 (MessageMovie message (Some created)), db') →
       movies db' !! oid = Some (doc created)
       ∧ (JS.truthy_number r = false → rating (doc created) = inject_Z 0)
       ∧ (JS.truthy_string g = false → genre (doc created) = None)
       ∧ (JS.truthy_number y = false → releaseYear (doc created) = None)
       ∧ (JS.truthy_string p = false → posterUrl (doc created) = None)).
Proof.
  intros post. subst post.
  split; [|split; [|split; [|split]]].
  - intros H. apply router_post_root_ext; simpl; auto using spread_string_falsy.
  - intros H. apply router_post_root_ext; simpl; auto using spread_number_falsy.
  - intros H. apply router_post_root_ext; simpl; auto using spread_number_falsy.
  - intros H. apply router_post_root_ext; simpl; auto using spread_string_falsy.
  - intros message created db' H.
    apply post_created_inv in H as (t' & d' & _ & _ & -> & ->). simpl.
    rewrite lookup_insert_eq. split; [done|].
    repeat split; intros Hf;
      by rewrite ?(spread_number_falsy _ Hf), ?(spread_string_falsy _ Hf).
Qed.

Lemma create_falsy_is_omitted_witness :
  let post := router_post_root Sample.year Sample.analyze 300%N 5000 5001 Sample.db1
                Sample.bob in
  let heat g r := Fields (Some "Heat"%string) (Some "Crime"%string) g None r None in
  (JS.truthy_string (Some EmptyString) = false ∧ JS.truthy_number (Some (inject_Z 0)) = false)
  ∧ post (heat (Some EmptyString) (Some (inject_Z 0))) = post (heat None (Some (inject_Z 0)))
  ∧ post (heat (Some EmptyString) (Some (inject_Z 0))) = post (heat (Some EmptyString) None)
  ∧ ∃ created db',
      post (heat (Some EmptyString) (Some (inject_Z 0)))
      = (Res 201 (MessageMovie "Movie added successfully" (Some created)), db')
      ∧ rating (doc created) = inject_Z 0 ∧ genre (doc created) = None.
Proof.
  intros post heat.
  destruct (create_falsy_is_omitted Sample.year Sample.analyze 300%N 5000 5001 Sample.db1
              Sample.bob (Some "Heat"%string) (Some "Crime"%string) (Some EmptyString) None
              (Some (inject_Z 0)) None) as (Hg & _ & Hr & _ & Hc).
  split; [split; reflexivity|].
  split; [apply Hg; reflexivity|].
  split; [apply Hr; reflexivity|].
  eexists _, _. split; [reflexivity|].
  destruct (Hc _ _ _ eq_refl) as (_ & Hrating & Hgenre & _).
  split; [apply Hrating | apply Hgenre]; reflexivity.
Defined.

(** ** Stored strings are trimmed *)

Lemma isTrimmed_trim s : isTrimmed (JS.trim s) = true.
Proof. unfold isTrimmed. rewrite trim_idem. apply String.eqb_refl. Qed.

Lemma isTrimmed_fmap_trim v : from_option isTrimmed true (JS.trim <$> v) = true.
Proof. destruct v; simpl; [apply isTrimmed_trim | done]. Qed.

Lemma trimmedDoc_post oid now stamp user t d body :
  trimmedDoc (post_document oid now stamp user t d body) = true.
Proof.
  unfold trimmedDoc, post_document, new_Movie; simpl.
  by rewrite !isTrimmed_trim, !isTrimmed_fmap_trim.
Qed.

Lemma trimmedDoc_updated stamp body m :
  trimmedDoc m = true → trimmedDoc (updated stamp body m) = true.
Proof.
  unfold trimmedDoc, updated; simpl. rewrite !andb_true_iff.
  intros (((Ht & Hd) & Hg) & Hp). repeat split.
  - destruct (f_title body); simpl; [apply isTrimmed_trim | done].
  - destruct (f_description body); simpl; [apply isTrimmed_trim | done].
  - destruct (f_genre body); simpl; [apply isTrimmed_trim | done].
  - destruct (f_posterUrl body); simpl; [apply isTrimmed_trim | done].
Qed.

Lemma put_ok_inv currentYear stamp db user id body payload db' :
  router_put_id currentYear stamp db user id body = (Res 200 payload, db') →
  ∃ oid m, castObjectId id = Some oid ∧ movies db !! oid = Some m
    ∧ uploadedBy m = user
    ∧ db' = with_movies db (<[oid := updated stamp body m]> (movies db)).
Proof.
  unfold router_put_id, findById, findByIdAndUpdate, catch_id, notFound.
  destruct (put_validationResult body); [|discriminate].
  destruct (castObjectId id) as [oid|] eqn:Hid; [|discriminate].
  destruct (movies db !! oid) as [m|] eqn:Hm; [|discriminate].
  destruct (N.eqb_spec (uploadedBy m) user) as [Hu|]; simpl; [|discriminate].
  destruct (runValidators _ _); [|discriminate].
  intros [= _ <-]. by exists oid, m.
Qed.

Lemma trimmedDoc_spec m :
  trimmedDoc m = true ↔
  JS.trim (title m) = title m ∧ JS.trim (description m) = description m
  ∧ (∀ g, genre m = Some g → JS.trim g = g)
  ∧ (∀ p, posterUrl m = Some p → JS.trim p = p).
Proof.
  unfold trimmedDoc, isTrimmed. rewrite !andb_true_iff, !String.eqb_eq.
  destruct (genre m) as [g|], (posterUrl m) as [p|]; simpl;
    rewrite ?String.eqb_eq; naive_solver.
Qed.

Lemma step_trimmed currentYear analyze db db' :
  step currentYear analyze db db' → trimmedDB db → trimmedDB db'.
Proof.
  intros Hstep Hdb. destruct Hstep as [oid now stamp db user body | stamp db user id body
                                      | db user id | db us].
  - destruct (post_outcome currentYear analyze oid now stamp db user body)
      as [-> | (t & d & _ & _ & _ & ->)]; [done|].
    apply map_Forall_insert_2; [apply trimmedDoc_post | done].
  - destruct (put_outcome currentYear stamp db user id body)
      as [-> | (oid & m & _ & Hm & _ & _ & _ & ->)]; [done|].
    apply map_Forall_insert_2; [|done].
    apply trimmedDoc_updated. exact (Hdb oid m Hm).
  - destruct (delete_outcome db user id) as [-> | (oid & m & _ & _ & _ & ->)]; [done|].
    by apply map_Forall_delete.
  - exact Hdb.
Qed.

(** C10. The stored title, description, genre and posterUrl of every movie
    equal their own trim: this holds of the empty collection, each request
    that writes keeps it, and so it holds of every database the routes can
    reach. Create stores the trim of the title and of the description it is
    given, and of a non-empty genre or posterUrl; update stores the trim of
    each string it is given. *)
Theorem stored_strings_trimmed currentYear analyze :
  (∀ db, reachable currentYear analyze db →
     ∀ k m, movies db !! k = Some m →
       JS.trim (title m) = title m ∧ JS.trim (description m) = description m
       ∧ (∀ g, genre m = Some g → JS.trim g = g)
       ∧ (∀ p, posterUrl m = Some p → JS.trim p = p))
  ∧ (∀ db db', step currentYear analyze db db' → trimmedDB db → trimmedDB db')
  ∧ (∀ oid now stamp db user body message created db',
       router_post_root currentYear analyze oid now stamp db user body
       = (Res 201 (MessageMovie message (Some created)), db') →
       movies db' !! oid = Some (doc created)
       ∧ (∀ t, f_title body = Some t → title (doc created) = JS.trim t)
       ∧ (∀ d, f_description body = Some d → description (doc created) = JS.trim d)
       ∧ (∀ g, f_genre body = Some g → g ≠ EmptyString →
            genre (doc created) = Some (JS.trim g))
       ∧ (∀ p, f_posterUrl body = Some p → p ≠ EmptyString →
            posterUrl (doc created) = Some (JS.trim p)))
  ∧ (∀ stamp db user id body payload db',
       router_put_id currentYear stamp db user id body = (Res 200 payload, db') →
       ∃ oid m', castObjectId id = Some oid ∧ movies db' !! oid = Some m'
         ∧ (∀ t, f_title body = Some t → title m' = JS.trim t)
         ∧ (∀ d, f_description body = Some d → description m' = JS.trim d)
         ∧ (∀ g, f_genre body = Some g → genre m' = Some (JS.trim g))
         ∧ (∀ p, f_posterUrl body = Some p → posterUrl m' = Some (JS.trim p))).
Proof.
  split; [|split; [|split]].
  - intros db Hreach.
    assert (Hdb : trimmedDB db).
    { induction Hreach as [us | db db' _ IH Hstep].
      - apply map_Forall_empty.
      - by eapply step_trimmed. }
    intros k m Hk. apply trimmedDoc_spec. exact (Hdb k m Hk).
  - apply step_trimmed.
  - intros oid now stamp db user body message created db' H.
    apply post_created_inv in H as (t & d & Ht & Hd & -> & ->). simpl.
    rewrite lookup_insert_eq. split; [done|].
    split; [intros ? [= <-]%(eq_trans (eq_sym Ht)); apply trim_idem|].
    split; [intros ? [= <-]%(eq_trans (eq_sym Hd)); apply trim_idem|].
    split; intros x -> Hne; (destruct x; [done|]); simpl; by rewrite trim_idem.
  - intros stamp db user id body payload db' H.
    apply put_ok_inv in H as (oid & m & Hid & Hm & _ & ->).
    exists oid, (updated stamp body m). simpl. rewrite lookup_insert_eq.
    destruct (updated_present stamp body m) as (Ht & Hd & Hg & _ & _ & Hp).
    repeat split; done.
Qed.

Lemma stored_strings_trimmed_witness :
  let db0 := {| movies := ∅; users := Sample.accounts |} in
  let created :=
    router_post_root Sample.year Sample.analyze 209%N 1000 1000 db0 Sample.alice
      (newMovie "  Dune " " Desert planet saga  ") in
  let renamed :=
    router_put_id Sample.year 7 created.2 Sample.alice Sample.duneId
      (genreOnly "  Sci-Fi") in
  reachable Sample.year Sample.analyze renamed.2
  ∧ (∃ m, movies renamed.2 !! 209%N = Some m
        ∧ title m = "Dune"%string ∧ genre m = Some "Sci-Fi"%string
        ∧ JS.trim (title m) = title m ∧ JS.trim (description m) = description m
        ∧ (∀ g, genre m = Some g → JS.trim g = g)
        ∧ (∀ p, posterUrl m = Some p → JS.trim p = p)).
Proof.
  intros db0 created renamed.
  assert (Hreach : reachable Sample.year Sample.analyze renamed.2).
  { eapply reachable_step; [|apply step_put].
    eapply reachable_step; [|apply step_post].
    apply reachable_empty. }
  split; [exact Hreach|].
  destruct (stored_strings_trimmed Sample.year Sample.analyze) as (Hinv & _).
  eexists. split; [reflexivity|]. split; [reflexivity|]. split; [reflexivity|].
  apply (Hinv renamed.2 Hreach 209%N). reflexivity.
Defined.

(** ** Listings *)

Section Listings.

Variable analyze : string → list string.
Variable sortDocs : string → Z → list Movie → list Movie.

(** A listing that answers 200 shows documents the cursor returned. *)
Lemma listing_inv db query q message ms cp tp total :
  listing analyze sortDocs db query q message = Res 200 (Page ms cp tp total) →
  ∃ found,
    cursor sortDocs (find analyze (movies db) query)
      (default "uploadedAt"%string (sortBy q))
      (direction (default "desc"%string (sortOrder q)))
      (default 10 (limit q) * 1) ((default 1 (page q) - 1) * default 10 (limit q))
    = inr found
    ∧ ms = shown db found ∧ cp = default 1 (page q)
    ∧ tp = JS.ceil_div (Z.of_nat total) (default 10 (limit q))
    ∧ total = countDocuments analyze (movies db) query.
Proof.
  unfold listing. destruct (cursor _ _ _ _ _ _) as [e|found]; [discriminate|].
  intros [= <- <- <- <-]. by exists found.
Qed.

(** With a page and a limit of at least one, the listing answers 200 with
    the slice of the sorted matches. *)
Lemma listing_ok db query q message :
  1 ≤ default 1 (page q) → 1 ≤ default 10 (limit q) →
  let p := default 1 (page q) in
  let l := default 10 (limit q) in
  let total := countDocuments analyze (movies db) query in
  listing analyze sortDocs db query q message
  = Res 200
      (Page (shown db
               (take (Z.to_nat l)
                  (drop (Z.to_nat ((p - 1) * l))
                     (sortDocs (default "uploadedAt"%string (sortBy q))
                        (direction (default "desc"%string (sortOrder q)))
                        (find analyze (movies db) query)))))
         p (JS.Num (- ((- Z.of_nat total) / l))) total).
Proof.
  intros Hp Hl p l total. unfold listing, cursor, JS.ceil_div. fold p l.
  destruct (Z.ltb_spec ((p - 1) * l) 0) as [Hneg|_]; [nia|].
  destruct (Z.eqb_spec (l * 1) 0) as [|_]; [lia|].
  destruct (Z.eqb_spec l 0) as [|_]; [lia|].
  by replace (Z.abs (l * 1)) with l by lia.
Qed.

Lemma ceil_bounds total l :
  1 ≤ l →
  let tp := - ((- total) / l) in
  (tp - 1) * l < total ≤ tp * l.
Proof.
  intros Hl tp. subst tp.
  pose proof (Z.div_mod (- total) l ltac:(lia)) as Hdm.
  pose proof (Z.mod_pos_bound (- total) l ltac:(lia)) as Hb.
  nia.
Qed.

Hypothesis sortDocs_perm : ∀ key dir l, sortDocs key dir l ≡ₚ l.

Lemma listing_beyond db query q message :
  1 ≤ default 1 (page q) → 1 ≤ default 10 (limit q) →
  let p := default 1 (page q) in
  let l := default 10 (limit q) in
  let total := countDocuments analyze (movies db) query in
  - ((- Z.of_nat total) / l) < p →
  listing analyze sortDocs db query q message
  = Res 200 (Page [] p (JS.Num (- ((- Z.of_nat total) / l))) total).
Proof.
  intros Hp Hl p l total Hbeyond.
  rewrite listing_ok by done. fold p l total.
  pose proof (ceil_bounds (Z.of_nat total) l Hl) as Hc. simpl in Hc.
  rewrite drop_ge; [by rewrite take_nil|].
  rewrite (Permutation_length (sortDocs_perm _ _ _)).
  unfold total, countDocuments in *. nia.
Qed.

Lemma listing_whole db query q message :
  default 1 (page q) = 1 →
  Z.of_nat (countDocuments analyze (movies db) query) ≤ default 10 (limit q) →
  1 ≤ default 10 (limit q) →
  ∃ ms tp,
    listing analyze sortDocs db query q message
    = Res 200 (Page ms 1 tp (countDocuments analyze (movies db) query))
    ∧ ms ≡ₚ shown db (find analyze (movies db) query).
Proof.
  intros Hp Hfit Hl. eexists _, _. rewrite listing_ok by lia. rewrite Hp.
  split; [reflexivity|]. unfold shown. simpl. rewrite drop_0, take_ge.
  - by rewrite sortDocs_perm.
  - rewrite (Permutation_length (sortDocs_perm _ _ _)).
    unfold countDocuments in Hfit. lia.
Qed.

Lemma listing_members db query q message ms cp tp total pm :
  listing analyze sortDocs db query q message = Res 200 (Page ms cp tp total) →
  pm ∈ ms →
  ∃ m, pm = populate ["username"%string] (users db) m
       ∧ m ∈ find analyze (movies db) query.
Proof.
  intros (found & Hc & -> & _)%listing_inv Hin.
  apply list_elem_of_fmap in Hin as (m & -> & Hm). exists m. split; [done|].
  revert Hc. unfold cursor. destruct (_ <? 0); [discriminate|]. intros [= <-].
  rewrite <- (sortDocs_perm (default "uploadedAt"%string (sortBy q))
                (direction (default "desc"%string (sortOrder q)))).
  destruct (_ =? 0).
  - by eapply subseteq_drop.
  - eapply subseteq_drop, subseteq_take. exact Hm.
Qed.

End Listings.

(** ** The filters of the two listing routes *)

Lemma existsb_orb {A} (f g : A → bool) l :
  existsb (λ x, f x || g x) l = existsb f l || existsb g l.
Proof.
  induction l as [|x l IH]; simpl; [done|]. rewrite IH.
  destruct (f x), (g x), (existsb f l), (existsb g l); done.
Qed.

Lemma textMatch_fields analyze s m :
  textMatch analyze s m
  = fieldMatch analyze s (title m) || fieldMatch analyze s (description m).
Proof.
  unfold textMatch, fieldMatch, textIndexTerms. rewrite <- existsb_orb.
  induction (analyze s) as [|t l IH]; simpl; [done|].
  rewrite IH. f_equal. unfold hasTerm. apply existsb_app.
Qed.

Lemma find_root analyze ms q :
  find analyze ms
    (if JS.truthy_string (search q)
     then {| q_text := search q; q_title := None; q_uploadedBy := None |}
     else anyDoc)
  = List.filter (searchHit analyze (search q)) (allDocs ms).
Proof.
  unfold find. apply List.filter_ext. intros m. unfold matches, searchHit.
  destruct (search q) as [[|c s]|]; simpl; try done.
  by rewrite textMatch_fields, !andb_true_r.
Qed.

Lemma find_mine analyze ms user :
  find analyze ms {| q_text := None; q_title := None; q_uploadedBy := Some user |}
  = List.filter (ownedBy user) (allDocs ms).
Proof. unfold find. apply List.filter_ext. intros m. by unfold matches, ownedBy. Qed.

(** C5 (as amended). In every listing either route returns, [totalMovies] is the number
    of movies its filter selects and [totalPages] is
    [Math.ceil(totalMovies / limit)]. With a limit of at least one (the
    records per page) that is the integer ceiling, the [n] with
    [(n - 1) * limit < totalMovies ≤ n * limit]; every page from 1 on is
    answered 200; and a page beyond [totalPages] is answered 200 with an
    empty list of movies and the same two counts. *)
Theorem pagination_total_pages analyze sortDocs db user q :
  (∀ key dir l, sortDocs key dir l ≡ₚ l) →
  let p := default 1 (page q) in
  let l := default 10 (limit q) in
  let all := length (List.filter (searchHit analyze (search q)) (allDocs (movies db))) in
  let mine := length (List.filter (ownedBy user) (allDocs (movies db))) in
  (∀ ms cp tp total,
     router_get_root analyze sortDocs db q = Res 200 (Page ms cp tp total) →
     cp = p ∧ total = all ∧ tp = JS.ceil_div (Z.of_nat all) l)
  ∧ (∀ ms cp tp total,
       router_get_my_movies analyze sortDocs db user q = Res 200 (Page ms cp tp total) →
       cp = p ∧ total = mine ∧ tp = JS.ceil_div (Z.of_nat mine) l)
  ∧ (1 ≤ l →
     ∃ n, JS.ceil_div (Z.of_nat all) l = JS.Num n
       ∧ (n - 1) * l < Z.of_nat all ≤ n * l
       ∧ (1 ≤ p → ∃ ms, router_get_root analyze sortDocs db q
                        = Res 200 (Page ms p (JS.Num n) all))
       ∧ (n < p → router_get_root analyze sortDocs db q
                  = Res 200 (Page [] p (JS.Num n) all)))
  ∧ (1 ≤ l →
     ∃ n, JS.ceil_div (Z.of_nat mine) l = JS.Num n
       ∧ (n - 1) * l < Z.of_nat mine ≤ n * l
       ∧ (1 ≤ p → ∃ ms, router_get_my_movies analyze sortDocs db user q
                        = Res 200 (Page ms p (JS.Num n) mine))
       ∧ (n < p → router_get_my_movies analyze sortDocs db user q
                  = Res 200 (Page [] p (JS.Num n) mine))).
Proof.
  intros Hperm p l all mine.
  assert (Hceil : ∀ total, 1 ≤ l →
            JS.ceil_div (Z.of_nat total) l = JS.Num (- ((- Z.of_nat total) / l))).
  { intros total Hl. unfold JS.ceil_div. destruct (Z.eqb_spec l 0); [lia | done]. }
  assert (Hall : countDocuments analyze (movies db)
                   (if JS.truthy_string (search q)
                    then {| q_text := search q; q_title := None; q_uploadedBy := None |}
                    else anyDoc) = all).
  { unfold countDocuments. by rewrite find_root. }
  assert (Hmine : countDocuments analyze (movies db)
                    {| q_text := None; q_title := None; q_uploadedBy := Some user |} = mine).
  { unfold countDocuments. by rewrite find_mine. }
  split; [|split; [|split]].
  - intros ms cp tp total H. unfold router_get_root in H.
    apply listing_inv in H as (found & _ & _ & -> & -> & ->). by rewrite Hall.
  - intros ms cp tp total H. unfold router_get_my_movies in H.
    apply listing_inv in H as (found & _ & _ & -> & -> & ->). by rewrite Hmine.
  - intros Hl. exists (- ((- Z.of_nat all) / l)).
    split; [by apply Hceil|]. split; [by apply ceil_bounds|].
    pose proof (ceil_bounds (Z.of_nat all) l Hl) as Hb. simpl in Hb.
    unfold router_get_root. split.
    + intros Hp. rewrite listing_ok by done. rewrite Hall. by eexists.
    + intros Hbeyond. rewrite <- Hall in *.
      apply (listing_beyond analyze sortDocs Hperm); [fold p; nia | done | done].
  - intros Hl. exists (- ((- Z.of_nat mine) / l)).
    split; [by apply Hceil|]. split; [by apply ceil_bounds|].
    pose proof (ceil_bounds (Z.of_nat mine) l Hl) as Hb. simpl in Hb.
    unfold router_get_my_movies. split.
    + intros Hp. rewrite listing_ok by done. rewrite Hmine. by eexists.
    + intros Hbeyond. rewrite <- Hmine in *.
      apply (listing_beyond analyze sortDocs Hperm); [fold p; nia | done | done].
Qed.

Lemma sample_natural_perm key dir (l : list Movie) : Sample.natural key dir l ≡ₚ l.
Proof. reflexivity. Qed.

Lemma pagination_total_pages_witness :
  (* two movies, one per page, page three *)
  router_get_root Sample.analyze Sample.natural Sample.db2 (pageOf 3 1 None)
  = Res 200 (Page [] 3 (JS.Num 2) 2)
  ∧ router_get_my_movies Sample.analyze Sample.natural Sample.db2 Sample.alice
      (pageOf 3 1 None)
    = Res 200 (Page [] 3 (JS.Num 2) 2).
Proof.
  destruct (pagination_total_pages Sample.analyze Sample.natural Sample.db2 Sample.alice
              (pageOf 3 1 None) sample_natural_perm) as (_ & _ & Hall & Hmine).
  split.
  - destruct Hall as (n & Hn & _ & _ & Hbeyond); [simpl; lia|].
    vm_compute in Hn. injection Hn as <-. apply Hbeyond. reflexivity.
  - destruct Hmine as (n & Hn & _ & _ & Hbeyond); [simpl; lia|].
    vm_compute in Hn. injection Hn as <-. apply Hbeyond. reflexivity.
Defined.

(** C5, as stated, fails for a limit below one, which the route accepts as
    it comes: with two movies and a limit of -1, [totalPages] is
    [Math.ceil(2 / -1) = -2]; page 1 is beyond it and yet lists a movie (the
    store takes a negative limit by its absolute value), and page 2 asks the
    store for a negative skip and is answered 500. *)
Lemma negative_limit_page_beyond_not_empty :
  (∃ ms, router_get_root Sample.analyze Sample.natural Sample.db2 (pageOf 1 (-1) None)
         = Res 200 (Page ms 1 (JS.Num (-2)) 2)
         ∧ ms ≠ [] ∧ length ms = 1%nat)
  ∧ JS.ceil_div 2 (-1) = JS.Num (-2) ∧ -2 < 1 ∧ -2 < 2
  ∧ router_get_root Sample.analyze Sample.natural Sample.db2 (pageOf 2 (-1) None)
    = Res 500 (Message "Server error while fetching movies").
Proof.
  split; [eexists; split; [reflexivity | split; [discriminate | reflexivity]]|].
  repeat split; reflexivity.
Qed.

(** ** Search *)

Lemma filter_all {A} (f : A → bool) (l : list A) :
  (∀ x, f x = true) → List.filter f l = l.
Proof.
  intros Hf. induction l as [|x l IH]; simpl; [done|]. by rewrite Hf, IH.
Qed.

Section Search.

Variable analyze : string → list string.
Variable sortDocs : string → Z → list Movie → list Movie.
Hypothesis sortDocs_perm : ∀ key dir l, sortDocs key dir l ≡ₚ l.
Hypothesis analyze_fold : ∀ s, analyze (lower s) = analyze s.

Lemma analyze_same_case s s' : lower s = lower s' → analyze s = analyze s'.
Proof. intros H. by rewrite <- (analyze_fold s), H, analyze_fold. Qed.

Lemma searchHit_same_case s s' m :
  lower s = lower s' →
  searchHit analyze (Some s) m = searchHit analyze (Some s') m.
Proof.
  intros H. pose proof (analyze_same_case s s' H) as Ha.
  destruct s as [|c s], s' as [|c' s']; simpl; try done.
  unfold fieldMatch. by rewrite Ha.
Qed.

(** C7. The movies [GET /api/movies] lists are taken from the result set
    of the search, [totalMovies] is its size, and a page large enough
    shows all of it. With an absent or empty search the result set is the
    whole collection; with a non-empty one it is the movies with a term of
    the search string among the terms of the title or of the description.
    The match is on the analyzer's terms, so with an analyzer that folds
    case the case of the search string and of the text does not matter. *)
Theorem search_result_set db q :
  let hits := List.filter (searchHit analyze (search q)) (allDocs (movies db)) in
  (∀ ms cp tp total,
     router_get_root analyze sortDocs db q = Res 200 (Page ms cp tp total) →
     total = length hits ∧ ms ⊆ shown db hits)
  ∧ (default 1 (page q) = 1 → 1 ≤ default 10 (limit q) →
     Z.of_nat (length hits) ≤ default 10 (limit q) →
     ∃ ms tp,
       router_get_root analyze sortDocs db q = Res 200 (Page ms 1 tp (length hits))
       ∧ ms ≡ₚ shown db hits)
  ∧ (search q = None ∨ search q = Some EmptyString → hits = allDocs (movies db))
  ∧ (∀ s, search q = Some s → s ≠ EmptyString →
     ∀ m, m ∈ hits ↔
          (∃ k, movies db !! k = Some m)
          ∧ (fieldMatch analyze s (title m) = true
             ∨ fieldMatch analyze s (description m) = true))
  ∧ (∀ s text,
       fieldMatch analyze (lower s) text = fieldMatch analyze s text
       ∧ fieldMatch analyze s (lower text) = fieldMatch analyze s text)
  ∧ (∀ s s' pg lm sb so,
       lower s = lower s' →
       router_get_root analyze sortDocs db
         {| page := pg; limit := lm; search := Some s; sortBy := sb; sortOrder := so |}
       = router_get_root analyze sortDocs db
           {| page := pg; limit := lm; search := Some s'; sortBy := sb; sortOrder := so |}).
Proof.
  intros hits. subst hits. split; [|split; [|split; [|split; [|split]]]].
  - intros ms cp tp total H. unfold router_get_root in H. split.
    + apply listing_inv in H as (found & _ & _ & _ & _ & ->).
      unfold countDocuments. by rewrite find_root.
    + intros pm Hin.
      destruct (listing_members analyze sortDocs sortDocs_perm _ _ _ _ _ _ _ _ _ H Hin)
        as (m & -> & Hm).
      rewrite find_root in Hm. unfold shown. by apply list_elem_of_fmap_2.
  - intros Hp Hl Hfit. unfold router_get_root.
    rewrite <- find_root in *. by apply listing_whole.
  - intros Hs. apply filter_all. intros m. unfold searchHit.
    by destruct Hs as [-> | ->].
  - intros s Hs Hne m. rewrite Hs.
    rewrite list_elem_of_In, filter_In, <- list_elem_of_In, elem_of_allDocs.
    unfold searchHit. destruct s as [|c s]; [done|]. by rewrite orb_true_iff.
  - intros s text. unfold fieldMatch. by rewrite !analyze_fold.
  - intros s s' pg lm sb so Hcase. unfold router_get_root; simpl.
    assert (Ht : JS.truthy_string (Some s) = JS.truthy_string (Some s')).
    { destruct s, s'; simpl in *; done. }
    pose proof (find_root analyze (movies db)
                  {| page := pg; limit := lm; search := Some s; sortBy := sb;
                     sortOrder := so |}) as H1.
    pose proof (find_root analyze (movies db)
                  {| page := pg; limit := lm; search := Some s'; sortBy := sb;
                     sortOrder := so |}) as H2.
    simpl in H1, H2. unfold listing, countDocuments. simpl. rewrite H1, H2.
    rewrite (List.filter_ext _ _ (λ m, searchHit_same_case s s' m Hcase)).
    done.
Qed.

End Search.

Lemma toLowerCase_idem c :
  Sample.toLowerCase (Sample.toLowerCase c) = Sample.toLowerCase c
  ∧ Sample.isAlnum (Sample.toLowerCase c) = Sample.isAlnum c.
Proof. destruct c as [[] [] [] [] [] [] [] []]; split; reflexivity. Qed.

Lemma sample_terms_fold s cur : Sample.terms cur (lower s) = Sample.terms cur s.
Proof.
  revert cur. induction s as [|c r IH]; intros cur; simpl; [done|].
  destruct (toLowerCase_idem c) as [-> ->]. by rewrite !IH.
Qed.

Lemma sample_analyze_fold s : Sample.analyze (lower s) = Sample.analyze s.
Proof. apply sample_terms_fold. Qed.

Lemma search_result_set_witness :
  router_get_root Sample.analyze Sample.natural Sample.db2 (pageOf 1 10 (Some "dune"%string))
  = Res 200 (Page (shown Sample.db2 [Sample.dune]) 1 (JS.Num 1) 1)
  ∧ router_get_root Sample.analyze Sample.natural Sample.db2
      (pageOf 1 10 (Some "DUNE"%string))
    = router_get_root Sample.analyze Sample.natural Sample.db2
        (pageOf 1 10 (Some "dune"%string))
  ∧ ∃ ms tp,
      router_get_root Sample.analyze Sample.natural Sample.db2 (pageOf 1 10 None)
      = Res 200 (Page ms 1 tp 2)
      ∧ ms ≡ₚ shown Sample.db2 (allDocs (movies Sample.db2)).
Proof.
  split; [reflexivity|]. split.
  - destruct (search_result_set Sample.analyze Sample.natural sample_natural_perm
                sample_analyze_fold Sample.db2 (pageOf 1 10 None))
      as (_ & _ & _ & _ & _ & Hcase).
    apply Hcase. reflexivity.
  - destruct (search_result_set Sample.analyze Sample.natural sample_natural_perm
                sample_analyze_fold Sample.db2 (pageOf 1 10 None))
      as (_ & Hwhole & Hall & _).
    destruct Hwhole as (ms & tp & Heq & Hperm); [reflexivity | simpl; lia | vm_compute; discriminate |].
    exists ms, tp. split; [exact Heq|].
    rewrite Hperm. by rewrite Hall by (by left).
Defined.

(** ** The owner embedded in a response *)

Lemma populate_username us m :
  owner (populate ["username"%string] us m) = ownerByName m <$> us !! uploadedBy m.
Proof. reflexivity. Qed.

(** C9. getOne embeds the owner with the username and the email; the list
    and my-movies routes embed the owner with the username only. (The owner
    is [null] when no user has the movie's [uploadedBy] as its id.) *)
Theorem owner_embedding analyze sortDocs :
  (∀ db id shownMovie,
     router_get_id db id = Res 200 (Document shownMovie) →
     owner shownMovie
     = ownerByNameAndEmail (doc shownMovie) <$> users db !! uploadedBy (doc shownMovie))
  ∧ (∀ db q ms cp tp total shownMovie,
       router_get_root analyze sortDocs db q = Res 200 (Page ms cp tp total) →
       shownMovie ∈ ms →
       owner shownMovie
       = ownerByName (doc shownMovie) <$> users db !! uploadedBy (doc shownMovie))
  ∧ (∀ db user q ms cp tp total shownMovie,
       router_get_my_movies analyze sortDocs db user q = Res 200 (Page ms cp tp total) →
       shownMovie ∈ ms →
       owner shownMovie
       = ownerByName (doc shownMovie) <$> users db !! uploadedBy (doc shownMovie)).
Proof.
  split; [|split].
  - intros db id pm. unfold router_get_id, findById, catch_id, notFound.
    destruct (castObjectId id); [|discriminate].
    destruct (movies db !! _); [|discriminate].
    by intros [= <-].
  - intros db q ms cp tp total pm H Hin. unfold router_get_root in H.
    apply listing_inv in H as (found & _ & -> & _).
    apply list_elem_of_fmap in Hin as (m & -> & _). apply populate_username.
  - intros db user q ms cp tp total pm H Hin. unfold router_get_my_movies in H.
    apply listing_inv in H as (found & _ & -> & _).
    apply list_elem_of_fmap in Hin as (m & -> & _). apply populate_username.
Qed.

Lemma owner_embedding_witness :
  (∃ shownMovie,
     router_get_id Sample.db1 Sample.duneId = Res 200 (Document shownMovie)
     ∧ owner shownMovie
       = Some {| o_id := Sample.alice; o_username := Some "alice"%string;
                 o_email := Some "alice@example.org"%string |})
  ∧ (∃ shownMovie,
       router_get_root Sample.analyze Sample.natural Sample.db1 (pageOf 1 10 None)
       = Res 200 (Page [shownMovie] 1 (JS.Num 1) 1)
       ∧ owner shownMovie
         = Some {| o_id := Sample.alice; o_username := Some "alice"%string;
                   o_email := None |})
  ∧ (∃ shownMovie,
       router_get_my_movies Sample.analyze Sample.natural Sample.db1 Sample.alice
         (pageOf 1 10 None)
       = Res 200 (Page [shownMovie] 1 (JS.Num 1) 1)
       ∧ owner shownMovie
         = Some {| o_id := Sample.alice; o_username := Some "alice"%string;
                   o_email := None |}).
Proof.
  destruct (owner_embedding Sample.analyze Sample.natural) as (Hone & Hlist & Hmine).
  split; [|split]; eexists; (split; [reflexivity|]).
  - rewrite (Hone Sample.db1 Sample.duneId _ eq_refl). reflexivity.
  - rewrite (Hlist Sample.db1 (pageOf 1 10 None) _ _ _ _ _ eq_refl); [reflexivity | left].
  - rewrite (Hmine Sample.db1 Sample.alice (pageOf 1 10 None) _ _ _ _ _ eq_refl);
      [reflexivity | left].
Defined.

(** * Further properties of the routes *)

(** ** Who can change what *)

Lemma put_touches_own currentYear stamp db user id body k m :
  movies db !! k = Some m →
  movies (router_put_id currentYear stamp db user id body).2 !! k = Some m
  ∨ (uploadedBy m = user
     ∧ movies (router_put_id currentYear stamp db user id body).2 !! k
       = Some (updated stamp body m)).
Proof.
  intros Hk.
  destruct (put_outcome currentYear stamp db user id body)
    as [-> | (oid & m0 & _ & Hm0 & Hu & _ & _ & ->)]; [by left|]. simpl.
  destruct (decide (oid = k)) as [->|Hne].
  - right. rewrite lookup_insert_eq. by simplify_eq.
  - left. by rewrite lookup_insert_ne.
Qed.

Lemma delete_touches_own db user id k m :
  movies db !! k = Some m →
  movies (router_delete_id db user id).2 !! k = Some m
  ∨ (uploadedBy m = user ∧ movies (router_delete_id db user id).2 !! k = None).
Proof.
  intros Hk.
  destruct (delete_outcome db user id) as [-> | (oid & m0 & _ & Hm0 & Hu & ->)];
    [by left|]. simpl.
  destruct (decide (oid = k)) as [->|Hne].
  - right. rewrite lookup_delete_eq. by simplify_eq.
  - left. by rewrite lookup_delete_ne.
Qed.

Lemma post_keeps currentYear analyze oid now stamp db user body k m :
  movies db !! k = Some m →
  movies (router_post_root currentYear analyze oid now stamp db user body).2 !! k = Some m.
Proof.
  intros Hk.
  destruct (post_outcome currentYear analyze oid now stamp db user body)
    as [-> | (t & d & _ & _ & Hfresh & ->)]; [done|]. simpl.
  rewrite lookup_insert_ne; [done|]. intros ->. congruence.
Qed.

(** X1. A request made as one user never changes or removes a movie of
    another user: after a create, an update or a delete by [user], every
    movie whose [uploadedBy] is not [user] is stored as it was, whatever the
    id and the body of the request. A create changes no stored movie at all,
    its author's included. *)
Theorem other_owners_untouched currentYear analyze db user k m :
  movies db !! k = Some m →
  (∀ oid now stamp body,
     movies (router_post_root currentYear analyze oid now stamp db user body).2 !! k
     = Some m)
  ∧ (uploadedBy m ≠ user →
     (∀ stamp id body,
        movies (router_put_id currentYear stamp db user id body).2 !! k = Some m)
     ∧ (∀ id, movies (router_delete_id db user id).2 !! k = Some m)).
Proof.
  intros Hk. split.
  - intros. by apply post_keeps.
  - intros Hne. split.
    + intros stamp id body.
      destruct (put_touches_own currentYear stamp db user id body k m Hk) as [H|[H _]];
        done.
    + intros id. destruct (delete_touches_own db user id k m Hk) as [H|[H _]]; done.
Qed.

Lemma other_owners_untouched_witness :
  movies Sample.db1 !! 209%N = Some Sample.dune ∧ uploadedBy Sample.dune ≠ Sample.bob
  ∧ movies (router_put_id Sample.year 7 Sample.db1 Sample.bob Sample.duneId
              (titleOnly "Mine now")).2 !! 209%N = Some Sample.dune
  ∧ movies (router_delete_id Sample.db1 Sample.bob Sample.duneId).2 !! 209%N
    = Some Sample.dune.
Proof.
  assert (H1 : movies Sample.db1 !! 209%N = Some Sample.dune) by reflexivity.
  assert (H2 : uploadedBy Sample.dune ≠ Sample.bob) by discriminate.
  destruct (other_owners_untouched Sample.year Sample.analyze Sample.db1 Sample.bob
              209%N Sample.dune H1) as (_ & Hfar).
  destruct (Hfar H2) as (Hput & Hdel).
  split; [exact H1|]. split; [exact H2|]. split; [apply Hput | apply Hdel].
Defined.

(** X2. No request rewrites what identifies a movie: if a movie is stored
    under a key before and after a request that can write, it has the same
    [_id], [uploadedBy], [uploadedAt] and [createdAt]. *)
Theorem identity_fields_kept currentYear analyze db db' k m m' :
  step currentYear analyze db db' →
  movies db !! k = Some m → movies db' !! k = Some m' →
  _id m' = _id m ∧ uploadedBy m' = uploadedBy m
  ∧ uploadedAt m' = uploadedAt m ∧ createdAt m' = createdAt m.
Proof.
  intros Hstep Hk Hk'.
  destruct Hstep as [oid now stamp db user body | stamp db user id body
                    | db user id | db us].
  - rewrite (post_keeps _ _ _ _ _ _ _ _ _ _ Hk) in Hk'. by simplify_eq.
  - destruct (put_touches_own currentYear stamp db user id body k m Hk) as [H|[_ H]];
      rewrite H in Hk'; simplify_eq; [done|].
    destruct (updated_absent stamp body m) as (? & ? & ? & ? & _). done.
  - destruct (delete_touches_own db user id k m Hk) as [H|[_ H]];
      rewrite H in Hk'; by simplify_eq.
  - simpl in Hk'. by simplify_eq.
Qed.

Lemma identity_fields_kept_witness :
  let db' := (router_put_id Sample.year 7 Sample.db1 Sample.alice Sample.duneId
                (titleOnly "Dune: Part One")).2 in
  ∃ m', movies db' !! 209%N = Some m'
        ∧ title m' = "Dune: Part One"%string
        ∧ _id m' = _id Sample.dune ∧ uploadedBy m' = uploadedBy Sample.dune
        ∧ uploadedAt m' = uploadedAt Sample.dune ∧ createdAt m' = createdAt Sample.dune.
Proof.
  intros db'. eexists. split; [reflexivity|]. split; [reflexivity|].
  apply (identity_fields_kept Sample.year Sample.analyze Sample.db1 db' 209%N);
    [apply step_put | reflexivity | reflexivity].
Defined.

(** ** What the collection always holds *)

Lemma runValidators_updated currentYear stamp body m :
  runValidators currentYear (applySetters (put_updates body)) = true →
  runValidators currentYear (fieldsOf m) = true →
  runValidators currentYear (fieldsOf (updated stamp body m)) = true.
Proof.
  unfold runValidators, updated, applySetters, put_updates, fieldsOf, applyUpdate; simpl.
  destruct (f_title body), (f_description body), (f_genre body),
    (f_releaseYear body), (f_rating body); simpl; rewrite !andb_true_iff; tauto.
Qed.

Lemma post_stored currentYear analyze oid now stamp db user body :
  (router_post_root currentYear analyze oid now stamp db user body).2 = db
  ∨ ∃ t d, f_title body = Some t ∧ f_description body = Some d
      ∧ movies db !! oid = None
      ∧ runValidators currentYear (fieldsOf (post_document oid now stamp user t d body))
        = true
      ∧ (router_post_root currentYear analyze oid now stamp db user body).2
        = with_movies db
            (<[oid := post_document oid now stamp user t d body]> (movies db)).
Proof.
  unfold router_post_root, save.
  destruct (post_validationResult body); [|by left].
  destruct (f_title body) as [t|]; [|by left].
  destruct (f_description body) as [d|]; [|by left].
  destruct (findOne _ _ _); [by left|].
  destruct (runValidators _ _) eqn:Hr; [|by left].
  change (_id (post_document oid now stamp user t d body)) with oid.
  destruct (movies db !! oid) eqn:Hf; [by left|].
  right. by exists t, d.
Qed.

Lemma step_wellFormed currentYear analyze db db' :
  step currentYear analyze db db' → wellFormedDB currentYear db → wellFormedDB currentYear db'.
Proof.
  intros Hstep Hdb.
  destruct Hstep as [oid now stamp db user body | stamp db user id body
                    | db user id | db us].
  - destruct (post_stored currentYear analyze oid now stamp db user body)
      as [-> | (t & d & _ & _ & _ & Hr & ->)]; [done|].
    by apply map_Forall_insert_2.
  - destruct (put_outcome currentYear stamp db user id body)
      as [-> | (oid & m & _ & Hm & _ & _ & Hr & ->)]; [done|].
    apply map_Forall_insert_2; [|done].
    destruct (Hdb oid m Hm) as [Hid Hv]. split.
    + by destruct (updated_absent stamp body m) as (-> & _).
    + by apply runValidators_updated.
  - destruct (delete_outcome db user id) as [-> | (oid & m & _ & _ & _ & ->)]; [done|].
    by apply map_Forall_delete.
  - exact Hdb.
Qed.

Lemma reachable_wellFormed currentYear analyze db :
  reachable currentYear analyze db → wellFormedDB currentYear db.
Proof.
  induction 1 as [us | db db' _ IH Hstep]; [apply map_Forall_empty|].
  by eapply step_wellFormed.
Qed.

Lemma minmax_spec lo hi q :
  minmax lo hi q = true ↔ (inject_Z lo <= q)%Q ∧ (q <= inject_Z hi)%Q.
Proof. unfold minmax. by rewrite andb_true_iff, !Qle_bool_iff. Qed.

(** X3. Every movie of a database the routes can reach from an empty
    collection is stored under its own [_id] and satisfies the schema: a
    non-empty title of at most 200 characters, a non-empty description of at
    most 1000, a genre of at most 50, a release year between 1900 and the
    schema's year plus five, and a rating between 0 and 10. *)
Theorem reachable_satisfies_schema currentYear analyze db k m :
  reachable currentYear analyze db → movies db !! k = Some m →
  _id m = k
  ∧ title m ≠ EmptyString ∧ (String.length (title m) ≤ 200)%nat
  ∧ description m ≠ EmptyString ∧ (String.length (description m) ≤ 1000)%nat
  ∧ (∀ g, genre m = Some g → (String.length g ≤ 50)%nat)
  ∧ (∀ y, releaseYear m = Some y →
       (inject_Z 1900 <= y)%Q ∧ (y <= inject_Z (currentYear + 5))%Q)
  ∧ (inject_Z 0 <= rating m)%Q ∧ (rating m <= inject_Z 10)%Q.
Proof.
  intros Hreach Hk.
  destruct (reachable_wellFormed _ _ _ Hreach k m Hk) as [Hid Hv].
  split; [done|]. revert Hv. unfold runValidators, fieldsOf; simpl.
  rewrite !andb_true_iff. unfold checkRequired, maxlength.
  intros (((([Ht Htl] & [Hd Hdl]) & Hg) & Hy) & Hr).
  apply Nat.leb_le in Htl, Hdl. apply minmax_spec in Hr.
  split; [by intros E; rewrite E in Ht|]. split; [done|].
  split; [by intros E; rewrite E in Hd|]. split; [done|].
  split; [intros g Hg'; rewrite Hg' in Hg; by apply Nat.leb_le|].
  split; [intros y Hy'; rewrite Hy' in Hy; by apply minmax_spec in Hy|].
  exact Hr.
Qed.

Lemma reachable_satisfies_schema_witness :
  let db0 := {| movies := ∅; users := Sample.accounts |} in
  let db' := (router_post_root Sample.year Sample.analyze 209%N 1000 1000 db0 Sample.alice
                (Fields (Some "Dune"%string) (Some "Desert planet saga"%string)
                   (Some "Sci-Fi"%string) (Some (inject_Z 2021)) (Some (17 # 2)) None)).2 in
  reachable Sample.year Sample.analyze db'
  ∧ ∃ m, movies db' !! 209%N = Some m
         ∧ _id m = 209%N ∧ title m ≠ EmptyString
         ∧ (inject_Z 0 <= rating m)%Q ∧ (rating m <= inject_Z 10)%Q.
Proof.
  intros db0 db'.
  assert (Hreach : reachable Sample.year Sample.analyze db').
  { eapply reachable_step; [apply reachable_empty | apply step_post]. }
  split; [exact Hreach|]. eexists. split; [reflexivity|].
  destruct (reachable_satisfies_schema Sample.year Sample.analyze db' 209%N _ Hreach eq_refl)
    as (Hid & Ht & _ & _ & _ & _ & _ & Hr).
  split; [exact Hid|]. split; [exact Ht | exact Hr].
Defined.

(** ** Round trips *)

Lemma post_ok_inv currentYear analyze oid now stamp db user body message created db' :
  router_post_root currentYear analyze oid now stamp db user body
  = (Res 201 (MessageMovie message (Some created)), db') →
  ∃ t d, f_title body = Some t ∧ f_description body = Some d
    ∧ post_validationResult body = []
    ∧ movies db !! oid = None
    ∧ runValidators currentYear (fieldsOf (post_document oid now stamp user t d body)) = true
    ∧ created = populate ["username"%string] (users db)
                  (post_document oid now stamp user t d body)
    ∧ db' = with_movies db
              (<[oid := post_document oid now stamp user t d body]> (movies db)).
Proof.
  unfold router_post_root, save.
  destruct (post_validationResult body); [|discriminate].
  destruct (f_title body) as [t|]; [|discriminate].
  destruct (f_description body) as [d|]; [|discriminate].
  destruct (findOne _ _ _); [discriminate|].
  destruct (runValidators _ _) eqn:Hr; [|discriminate].
  change (_id (post_document oid now stamp user t d body)) with oid.
  destruct (movies db !! oid) eqn:Hf; [discriminate|].
  intros [= _ <- <-]. by exists t, d.
Qed.

(** X4. A movie that create answers 201 for is the movie getOne returns
    under its id, with the owner's username and email embedded; it belongs
    to the user who created it, carries the request's [new Date()] as
    [uploadedAt], and the collection is one movie larger. *)
Theorem create_then_get currentYear analyze oid now stamp db user body message created db' id :
  router_post_root currentYear analyze oid now stamp db user body
  = (Res 201 (MessageMovie message (Some created)), db') →
  castObjectId id = Some oid →
  router_get_id db' id
  = Res 200 (Document (populate ["username"; "email"]%string (users db') (doc created)))
  ∧ _id (doc created) = oid ∧ uploadedBy (doc created) = user
  ∧ uploadedAt (doc created) = now
  ∧ movies db !! oid = None
  ∧ size (movies db') = S (size (movies db)).
Proof.
  intros Hpost Hid.
  apply post_ok_inv in Hpost as (t & d & _ & _ & _ & Hfresh & _ & -> & ->).
  unfold router_get_id, findById. rewrite Hid. simpl.
  rewrite lookup_insert_eq. repeat split; try done.
  by apply map_size_insert_None.
Qed.

Lemma create_then_get_witness :
  let r := router_post_root Sample.year Sample.analyze 255%N 5000 5001 Sample.db1 Sample.bob
             (newMovie "Heat" "Crime") in
  ∃ created,
    r.1 = Res 201 (MessageMovie "Movie added successfully" (Some created))
    ∧ castObjectId Sample.missingId = Some 255%N
    ∧ router_get_id r.2 Sample.missingId
      = Res 200 (Document (populate ["username"; "email"]%string (users r.2) (doc created)))
    ∧ uploadedBy (doc created) = Sample.bob
    ∧ size (movies r.2) = 2%nat.
Proof.
  intros r. eexists. split; [reflexivity|]. split; [reflexivity|].
  destruct (create_then_get Sample.year Sample.analyze 255%N 5000 5001 Sample.db1 Sample.bob
              (newMovie "Heat" "Crime") _ _ _ Sample.missingId eq_refl eq_refl)
    as (Hget & _ & Hu & _ & _ & Hsize).
  split; [exact Hget|]. split; [exact Hu | exact Hsize].
Defined.

Lemma put_200_inv currentYear stamp db user id body payload db' :
  router_put_id currentYear stamp db user id body = (Res 200 payload, db') →
  ∃ oid m, castObjectId id = Some oid ∧ movies db !! oid = Some m
    ∧ uploadedBy m = user ∧ put_validationResult body = []
    ∧ runValidators currentYear (applySetters (put_updates body)) = true
    ∧ payload = MessageMovie "Movie updated successfully"
                  (Some (populate ["username"%string] (users db) (updated stamp body m)))
    ∧ db' = with_movies db (<[oid := updated stamp body m]> (movies db)).
Proof.
  unfold router_put_id, findById, findByIdAndUpdate, catch_id, notFound.
  destruct (put_validationResult body); [|discriminate].
  destruct (castObjectId id) as [oid|] eqn:Hid; [|discriminate].
  destruct (movies db !! oid) as [m|] eqn:Hm; [|discriminate].
  destruct (N.eqb_spec (uploadedBy m) user) as [Hu|]; simpl; [|discriminate].
  destruct (runValidators _ _) eqn:Hr; [|discriminate].
  intros [= <- <-]. by exists oid, m.
Qed.

(** X5. A movie that update answers 200 for is the movie getOne then returns
    under the same id; its [updatedAt] is the time of the update, its owner
    is the caller, and the collection has as many movies as before. *)
Theorem update_then_get currentYear stamp db user id body message shownMovie db' :
  router_put_id currentYear stamp db user id body
  = (Res 200 (MessageMovie message (Some shownMovie)), db') →
  router_get_id db' id
  = Res 200 (Document (populate ["username"; "email"]%string (users db') (doc shownMovie)))
  ∧ updatedAt (doc shownMovie) = stamp
  ∧ uploadedBy (doc shownMovie) = user
  ∧ size (movies db') = size (movies db).
Proof.
  intros (oid & m & Hid & Hm & Hu & _ & _ & [= _ ->] & ->)%put_200_inv.
  unfold router_get_id, findById. rewrite Hid. simpl. rewrite lookup_insert_eq.
  repeat split; try done. by eapply map_size_insert_Some.
Qed.

Lemma update_then_get_witness :
  let r := router_put_id Sample.year 7 Sample.db1 Sample.alice Sample.duneId
             (ratingOnly (inject_Z 9)) in
  ∃ shownMovie,
    r.1 = Res 200 (MessageMovie "Movie updated successfully" (Some shownMovie))
    ∧ router_get_id r.2 Sample.duneId
      = Res 200 (Document (populate ["username"; "email"]%string (users r.2)
                             (doc shownMovie)))
    ∧ rating (doc shownMovie) = inject_Z 9 ∧ updatedAt (doc shownMovie) = 7.
Proof.
  intros r. eexists. split; [reflexivity|].
  destruct (update_then_get Sample.year 7 Sample.db1 Sample.alice Sample.duneId
              (ratingOnly (inject_Z 9)) _ _ _ eq_refl) as (Hget & Hs & _).
  split; [exact Hget|]. split; [reflexivity | exact Hs].
Defined.

(** X6. A delete by the owner is answered 200 and removes that movie and no
    other: the collection is one movie smaller and the users are as they
    were. Afterwards getOne, a second delete and a valid update of the same
    id are all answered 404. *)
Theorem delete_removes_one currentYear db user id oid m :
  castObjectId id = Some oid → movies db !! oid = Some m → uploadedBy m = user →
  let r := router_delete_id db user id in
  r.1 = Res 200 (Message "Movie deleted successfully")
  ∧ movies r.2 !! oid = None
  ∧ (∀ k, k ≠ oid → movies r.2 !! k = movies db !! k)
  ∧ users r.2 = users db
  ∧ S (size (movies r.2)) = size (movies db)
  ∧ router_get_id r.2 id = notFound
  ∧ router_delete_id r.2 user id = (notFound, r.2)
  ∧ (∀ stamp body, put_validationResult body = [] →
       router_put_id currentYear stamp r.2 user id body = (notFound, r.2)).
Proof.
  intros Hid Hm Hu r.
  assert (Hr : r = (Res 200 (Message "Movie deleted successfully"),
                    with_movies db (delete oid (movies db)))).
  { subst r. unfold router_delete_id, findById, findByIdAndDelete.
    rewrite Hid, Hm. subst user. by rewrite N.eqb_refl. }
  rewrite Hr. simpl.
  assert (Hgone : (delete oid (movies db) : gmap ObjectId Movie) !! oid = None)
    by apply lookup_delete_eq.
  split; [done|]. split; [done|].
  split; [intros k Hne; by apply lookup_delete_ne|].
  split; [done|].
  split.
  { rewrite map_size_delete_Some by eauto.
    pose proof (map_size_ne_0_lookup_2 (movies db) oid ltac:(eauto)). lia. }
  split; [apply get_no_document; right; eauto|].
  split; [apply delete_no_document; right; eauto|].
  intros stamp body Hv. apply put_no_document; [done|]. right. eauto.
Qed.

Lemma delete_removes_one_witness :
  let r := router_delete_id Sample.db2 Sample.alice Sample.duneId in
  r.1 = Res 200 (Message "Movie deleted successfully")
  ∧ movies r.2 !! 209%N = None
  ∧ movies r.2 !! 162%N = Some Sample.arrival
  ∧ router_get_id r.2 Sample.duneId = notFound
  ∧ router_delete_id r.2 Sample.alice Sample.duneId = (notFound, r.2).
Proof.
  intros r.
  destruct (delete_removes_one Sample.year Sample.db2 Sample.alice Sample.duneId 209%N
              Sample.dune eq_refl eq_refl eq_refl)
    as (H200 & Hgone & Hothers & _ & _ & Hget & Hdel & _).
  split; [exact H200|]. split; [exact Hgone|].
  split; [rewrite Hothers; [reflexivity | discriminate]|].
  split; [exact Hget | exact Hdel].
Defined.

Lemma updated_twice s1 s2 body m :
  updated s2 body (updated s1 body m) = updated s2 body m.
Proof.
  unfold updated, applyUpdate, applySetters, put_updates; simpl.
  destruct (f_title body), (f_description body), (f_genre body),
    (f_releaseYear body), (f_rating body), (f_posterUrl body); reflexivity.
Qed.

(** X7. Repeating an update is making it once: an update sent a second time
    with the same body gives the response and the database of the second
    one sent alone (the later [updatedAt] is the one that stays). *)
Theorem update_twice currentYear s1 s2 db user id body :
  router_put_id currentYear s2 (router_put_id currentYear s1 db user id body).2 user id body
  = router_put_id currentYear s2 db user id body.
Proof.
  destruct (put_outcome currentYear s1 db user id body)
    as [-> | (oid & m & Hid & Hm & Hu & Hv & Hr & ->)]; [done|]. simpl.
  rewrite (put_owner_ok currentYear s2 db user id oid m body Hv Hid Hm Hu Hr).
  rewrite (put_owner_ok currentYear s2 _ user id oid (updated s1 body m) body Hv Hid);
    [| apply lookup_insert_eq | by destruct (updated_absent s1 body m) as (_ & -> & _) | done].
  simpl. rewrite updated_twice. unfold with_movies; simpl.
  by rewrite insert_insert_eq.
Qed.

(** ** Rejected creations *)

Lemma elem_of_check e path ok msg v :
  e ∈ Validator.check path ok msg v ↔ e = (path, msg) ∧ ok v = false.
Proof.
  unfold Validator.check. destruct (ok v).
  - split; [by intros ?%not_elem_of_nil | by intros [_ ?]].
  - rewrite list_elem_of_singleton. naive_solver.
Qed.

Lemma notEmpty_false v :
  Validator.notEmpty v = false ↔ v = None ∨ v = Some EmptyString.
Proof.
  unfold Validator.notEmpty, Validator.toString.
  destruct v as [[|c s]|]; simpl; naive_solver.
Qed.

Lemma isLength_max_false n v :
  Validator.isLength_max n v = false ↔ ∃ s, v = Some s ∧ (n < String.length s)%nat.
Proof.
  unfold Validator.isLength_max, Validator.toString. rewrite Nat.leb_gt.
  destruct v as [s|]; simpl; [naive_solver|]. split; [lia | by intros (s & ? & _)].
Qed.

(** X8. A create whose body fails the validation chain is answered 400 with
    the errors and writes nothing, and the errors name every violation, not
    the first one only: "Title is required" is among them exactly when the
    title is absent or empty, "Title must be less than 200 characters"
    exactly when the title has more than 200, and the same for the
    description with 1000; there is no other entry. *)
Theorem create_reports_every_violation currentYear analyze oid now stamp db user body :
  let errors := post_validationResult body in
  (errors ≠ [] →
   router_post_root currentYear analyze oid now stamp db user body
   = (Res 400 (Errors errors), db))
  ∧ (("title", "Title is required")%string ∈ errors
     ↔ f_title body = None ∨ f_title body = Some EmptyString)
  ∧ (("description", "Description is required")%string ∈ errors
     ↔ f_description body = None ∨ f_description body = Some EmptyString)
  ∧ (("title", "Title must be less than 200 characters")%string ∈ errors
     ↔ ∃ t, f_title body = Some t ∧ (200 < String.length t)%nat)
  ∧ (("description", "Description must be less than 1000 characters")%string ∈ errors
     ↔ ∃ d, f_description body = Some d ∧ (1000 < String.length d)%nat)
  ∧ (∀ e, e ∈ errors →
       e = ("title", "Title is required")%string
       ∨ e = ("description", "Description is required")%string
       ∨ e = ("title", "Title must be less than 200 characters")%string
       ∨ e = ("description", "Description must be less than 1000 characters")%string).
Proof.
  intros errors. subst errors. split.
  { intros Hne. unfold router_post_root. by destruct (post_validationResult body). }
  unfold post_validationResult.
  repeat split; rewrite ?elem_of_app, ?elem_of_check, ?notEmpty_false, ?isLength_max_false
    in *; try naive_solver.
  intros e H. rewrite ?elem_of_app, ?elem_of_check in H. naive_solver.
Qed.

Lemma create_reports_every_violation_witness :
  router_post_root Sample.year Sample.analyze 255%N 5000 5001 Sample.db1 Sample.bob
    (Fields (Some longTitle) None None None None None)
  = (Res 400 (Errors [("description", "Description is required")%string;
                      ("title", "Title must be less than 200 characters")%string]),
     Sample.db1).
Proof.
  destruct (create_reports_every_violation Sample.year Sample.analyze 255%N 5000 5001
              Sample.db1 Sample.bob (Fields (Some longTitle) None None None None None))
    as (H400 & _).
  apply H400. discriminate.
Defined.

Lemma runValidators_blank_title currentYear f :
  f_title f = Some EmptyString → runValidators currentYear f = false.
Proof. unfold runValidators. by intros ->. Qed.

(** X9. A title made of white space only passes create's validation chain
    (which does not trim) and then fails the schema's [required] once
    trimmed: in a database the routes can reach, such a create is answered
    500 "Server error while creating movie", not 400, and writes nothing. *)
Theorem create_blank_title_is_500 currentYear analyze oid now stamp db user body t :
  reachable currentYear analyze db →
  post_validationResult body = [] →
  f_title body = Some t → JS.trim t = EmptyString →
  router_post_root currentYear analyze oid now stamp db user body
  = (Res 500 (Message "Server error while creating movie"), db).
Proof.
  intros Hreach Hv Ht Hblank.
  destruct (post_valid_inv body Hv) as (t' & d & Ht' & Hd & _).
  unfold router_post_root, save. rewrite Hv, Ht, Hd, Hblank.
  rewrite findOne_is_None.
  - rewrite runValidators_blank_title; [done|]. simpl. by rewrite Hblank.
  - intros k m Hk. unfold matches; simpl.
    destruct (String.eqb_spec (title m) EmptyString) as [He|]; [|done].
    destruct (reachable_wellFormed _ _ _ Hreach k m Hk) as [_ Hm].
    revert Hm. unfold runValidators, fieldsOf; simpl. by rewrite He.
Qed.

Lemma create_blank_title_is_500_witness :
  let db0 := {| movies := ∅; users := Sample.accounts |} in
  post_validationResult (newMovie "   " "Nothing") = []
  ∧ router_post_root Sample.year Sample.analyze 255%N 5000 5001 db0 Sample.bob
      (newMovie "   " "Nothing")
    = (Res 500 (Message "Server error while creating movie"), db0).
Proof.
  intros db0. split; [reflexivity|].
  apply (create_blank_title_is_500 Sample.year Sample.analyze 255%N 5000 5001 db0
           Sample.bob (newMovie "   " "Nothing") "   "%string);
    [apply reachable_empty | reflexivity | reflexivity | reflexivity].
Defined.

(** X10. Create checks the optional fields in the schema only, and a value
    the schema refuses is never stored: with a non-empty genre of more than
    50 characters once trimmed, a non-zero release year outside 1900 to the
    schema's year plus five, or a rating outside 0 to 10, a create
    that passes the validation chain is answered 500 (or 400 for a
    duplicate title) and writes nothing. *)
Theorem create_out_of_range currentYear analyze oid now stamp db user body :
  post_validationResult body = [] →
  (∃ g, f_genre body = Some g ∧ (50 < String.length (JS.trim g))%nat)
  ∨ (∃ y, f_releaseYear body = Some y ∧ ¬ (y == 0)%Q
          ∧ minmax 1900 (currentYear + 5) y = false)
  ∨ (∃ r, f_rating body = Some r ∧ minmax 0 10 r = false) →
  let r := router_post_root currentYear analyze oid now stamp db user body in
  r.2 = db
  ∧ (r.1 = Res 500 (Message "Server error while creating movie")
     ∨ r.1 = Res 400 (Message "You have already added a movie with this title")).
Proof.
  intros Hv Hbad r. subst r.
  destruct (post_valid_inv body Hv) as (t & d & Ht & Hd & _).
  unfold router_post_root, save. rewrite Hv, Ht, Hd.
  destruct (findOne _ _ _); [by split; [|right]|].
  assert (Hr : runValidators currentYear
                 (fieldsOf (post_document oid now stamp user t d body)) = false).
  { unfold runValidators, fieldsOf, post_document, new_Movie; simpl.
    destruct Hbad as [(g & Hg & Hlen) | [(y & Hy & Hnz & Hout) | (q & Hq & Hout)]].
    - rewrite Hg. unfold spread_string. destruct g as [|c g]; [simpl in Hlen; lia|].
      simpl JS.truthy_string. cbn [fmap option_fmap option_map from_option].
      unfold maxlength. rewrite !trim_idem.
      destruct (Nat.leb_spec (String.length (JS.trim (String c g))) 50); [lia|].
      by rewrite !andb_false_r.
    - rewrite Hy. unfold spread_number. simpl.
      destruct (Qeq_bool y 0) eqn:E; [by apply Qeq_bool_iff in E|]. simpl.
      rewrite Hout. by rewrite !andb_false_r.
    - rewrite Hq. unfold spread_number. simpl.
      destruct (Qeq_bool q 0) eqn:E; simpl.
      + exfalso. apply Qeq_bool_iff in E.
        assert (minmax 0 10 q = true); [|congruence].
        apply minmax_spec. rewrite E. split; by apply Qle_bool_iff.
      + rewrite Hout. by rewrite !andb_false_r. }
  rewrite Hr. by split; [|left].
Qed.

Lemma create_out_of_range_witness :
  let body := Fields (Some "Heat"%string) (Some "Crime"%string) None None
                (Some (inject_Z 11)) None in
  post_validationResult body = []
  ∧ minmax 0 10 (inject_Z 11) = false
  ∧ router_post_root Sample.year Sample.analyze 255%N 5000 5001 Sample.db1 Sample.bob body
    = (Res 500 (Message "Server error while creating movie"), Sample.db1).
Proof.
  intros body.
  assert (Hv : post_validationResult body = []) by reflexivity.
  assert (Hout : minmax 0 10 (inject_Z 11) = false) by reflexivity.
  split; [exact Hv|]. split; [exact Hout|].
  destruct (create_out_of_range Sample.year Sample.analyze 255%N 5000 5001 Sample.db1
              Sample.bob body Hv) as (Hdb & Hres).
  { right. right. exists (inject_Z 11). split; [reflexivity | exact Hout]. }
  destruct Hres as [H|H]; [|vm_compute in H; discriminate H].
  apply injective_projections; [exact H | exact Hdb].
Defined.

(** ** Pages *)

Lemma listing_length analyze sortDocs db query q message :
  (∀ key dir l, sortDocs key dir l ≡ₚ l) →
  1 ≤ default 1 (page q) → 1 ≤ default 10 (limit q) →
  Z.of_nat (length (moviesOf (listing analyze sortDocs db query q message)))
  = Z.min (default 10 (limit q))
      (Z.max 0 (Z.of_nat (countDocuments analyze (movies db) query)
                - (default 1 (page q) - 1) * default 10 (limit q))).
Proof.
  intros Hperm Hp Hl. rewrite listing_ok by done. unfold moviesOf, shown; simpl.
  rewrite length_fmap, length_take, length_drop, (Permutation_length (Hperm _ _ _)).
  unfold countDocuments. nia.
Qed.

(** X11. The size of a page (both listing routes, page and limit at least
    one): page [p] with limit [l] of [n] selected movies shows
    [min l (n - (p - 1) * l)] of them, none when that is negative. So a
    page never shows more than [limit] movies, every page before the last
    is full, and a page is empty exactly when [(p - 1) * l] reaches [n]. *)
Theorem page_sizes analyze sortDocs db user q :
  (∀ key dir l, sortDocs key dir l ≡ₚ l) →
  1 ≤ default 1 (page q) → 1 ≤ default 10 (limit q) →
  let p := default 1 (page q) in
  let l := default 10 (limit q) in
  let all := Z.of_nat (length (List.filter (searchHit analyze (search q))
                                 (allDocs (movies db)))) in
  let mine := Z.of_nat (length (List.filter (ownedBy user) (allDocs (movies db)))) in
  let listed := moviesOf (router_get_root analyze sortDocs db q) in
  let listedMine := moviesOf (router_get_my_movies analyze sortDocs db user q) in
  Z.of_nat (length listed) = Z.min l (Z.max 0 (all - (p - 1) * l))
  ∧ Z.of_nat (length listedMine) = Z.min l (Z.max 0 (mine - (p - 1) * l))
  ∧ (p * l ≤ all → Z.of_nat (length listed) = l)
  ∧ (p * l ≤ mine → Z.of_nat (length listedMine) = l)
  ∧ (listed = [] ↔ all ≤ (p - 1) * l)
  ∧ (listedMine = [] ↔ mine ≤ (p - 1) * l).
Proof.
  intros Hperm Hp Hl p l all mine listed listedMine.
  assert (H1 : Z.of_nat (length listed) = Z.min l (Z.max 0 (all - (p - 1) * l))).
  { subst listed all. unfold router_get_root. rewrite listing_length by done.
    unfold countDocuments. by rewrite find_root. }
  assert (H2 : Z.of_nat (length listedMine) = Z.min l (Z.max 0 (mine - (p - 1) * l))).
  { subst listedMine mine. unfold router_get_my_movies. rewrite listing_length by done.
    unfold countDocuments. by rewrite find_mine. }
  split; [exact H1|]. split; [exact H2|].
  split; [intros; nia|]. split; [intros; nia|].
  split.
  - split; [intros E; rewrite E in H1; simpl in H1; nia|].
    intros Hle. destruct listed; [done|]. simpl in H1. nia.
  - split; [intros E; rewrite E in H2; simpl in H2; nia|].
    intros Hle. destruct listedMine; [done|]. simpl in H2. nia.
Qed.

Lemma page_sizes_witness :
  length (moviesOf (router_get_root Sample.analyze Sample.natural Sample.db2
                      (pageOf 2 1 None))) = 1%nat
  ∧ moviesOf (router_get_my_movies Sample.analyze Sample.natural Sample.db2 Sample.bob
                (pageOf 1 1 None)) = [].
Proof.
  split.
  - destruct (page_sizes Sample.analyze Sample.natural Sample.db2 Sample.alice
                (pageOf 2 1 None) sample_natural_perm) as (_ & _ & Hfull & _);
      [simpl; lia | simpl; lia |].
    apply Nat2Z.inj. apply Hfull. vm_compute. discriminate.
  - destruct (page_sizes Sample.analyze Sample.natural Sample.db2 Sample.bob
                (pageOf 1 1 None) sample_natural_perm) as (_ & _ & _ & _ & _ & Hempty);
      [simpl; lia | simpl; lia |].
    apply Hempty. vm_compute. discriminate.
Defined.

(** X12. My-movies lists the caller's movies and only those: every movie it
    returns is stored and has the caller as [uploadedBy], and with the first
    page and a limit that covers them it returns each movie of the caller,
    once for each key it is stored under. The list route returns stored
    movies only. *)
Theorem my_movies_are_own analyze sortDocs db user q :
  (∀ key dir l, sortDocs key dir l ≡ₚ l) →
  (∀ shownMovie,
     shownMovie ∈ moviesOf (router_get_my_movies analyze sortDocs db user q) →
     uploadedBy (doc shownMovie) = user
     ∧ ∃ k, movies db !! k = Some (doc shownMovie))
  ∧ (∀ shownMovie,
       shownMovie ∈ moviesOf (router_get_root analyze sortDocs db q) →
       ∃ k, movies db !! k = Some (doc shownMovie))
  ∧ (default 1 (page q) = 1 → 1 ≤ default 10 (limit q) →
     Z.of_nat (length (List.filter (ownedBy user) (allDocs (movies db))))
     ≤ default 10 (limit q) →
     moviesOf (router_get_my_movies analyze sortDocs db user q)
     ≡ₚ shown db (List.filter (ownedBy user) (allDocs (movies db)))).
Proof.
  intros Hperm. split; [|split].
  - intros pm Hin. unfold router_get_my_movies, moviesOf in Hin.
    destruct (listing _ _ _ _ _ _) as [st [| | | |ms cp tp total]] eqn:E; simpl in Hin;
      try by apply not_elem_of_nil in Hin.
    assert (st = 200) as ->.
    { revert E. unfold listing. destruct (cursor _ _ _ _ _ _); by intros [=]. }
    destruct (listing_members analyze sortDocs Hperm _ _ _ _ _ _ _ _ _ E Hin)
      as (m & -> & Hm).
    apply elem_of_find in Hm as [Hk Hmatch]. simpl. split; [|done].
    revert Hmatch. unfold matches; simpl. by intros ?%N.eqb_eq.
  - intros pm Hin. unfold router_get_root, moviesOf in Hin.
    destruct (listing _ _ _ _ _ _) as [st [| | | |ms cp tp total]] eqn:E; simpl in Hin;
      try by apply not_elem_of_nil in Hin.
    assert (st = 200) as ->.
    { revert E. unfold listing. destruct (cursor _ _ _ _ _ _); by intros [=]. }
    destruct (listing_members analyze sortDocs Hperm _ _ _ _ _ _ _ _ _ E Hin)
      as (m & -> & Hm).
    apply elem_of_find in Hm as [Hk _]. done.
  - intros Hp Hl Hfit. unfold router_get_my_movies.
    rewrite <- find_mine with (analyze := analyze) in *.
    destruct (listing_whole analyze sortDocs Hperm db
                {| q_text := None; q_title := None; q_uploadedBy := Some user |} q
                "Server error while fetching your movies" Hp Hfit Hl)
      as (ms & tp & -> & Hms).
    exact Hms.
Qed.

Lemma my_movies_are_own_witness :
  moviesOf (router_get_my_movies Sample.analyze Sample.natural Sample.db2 Sample.bob
              (pageOf 1 10 None)) = []
  ∧ ∀ shownMovie,
      shownMovie ∈ moviesOf (router_get_my_movies Sample.analyze Sample.natural Sample.db2
                               Sample.alice (pageOf 1 10 None)) →
      uploadedBy (doc shownMovie) = Sample.alice.
Proof.
  split; [reflexivity|].
  intros pm Hin.
  destruct (my_movies_are_own Sample.analyze Sample.natural Sample.db2 Sample.alice
              (pageOf 1 10 None) sample_natural_perm) as (Hown & _).
  by destruct (Hown pm Hin).
Defined.

(** * Properties of the client *)

(** ** The movie card *)

Lemma length_append (s t : string) :
  String.length (s +:+ t) = (String.length s + String.length t)%nat.
Proof. induction s as [|c s IH]; simpl; [done | by rewrite IH]. Qed.

Lemma length_substring_0 k s :
  (k ≤ String.length s)%nat → String.length (String.substring 0 k s) = k.
Proof.
  revert s. induction k as [|k IH]; intros [|c s] Hk; simpl in *; try lia; try done.
  rewrite IH; lia.
Qed.

Lemma substring_whole s : String.substring 0 (String.length s) s = s.
Proof. induction s as [|c s IH]; simpl; [done | by rewrite IH]. Qed.

Lemma substring_append_l (a b : string) :
  String.substring 0 (String.length a) (a +:+ b) = a.
Proof.
  induction a as [|c a IH]; simpl; [by destruct b | by rewrite IH].
Qed.

Lemma substring_append_r (a b : string) :
  String.substring (String.length a) (String.length b) (a +:+ b) = b.
Proof. induction a as [|c a IH]; simpl; [apply substring_whole | done]. Qed.

(** X13. What the card shows of a title or a description ([truncateText]
    with a bound of at least zero): a text within the bound is shown as it
    is; a longer one is shown as its first [maxLength] characters followed
    by three dots, [maxLength + 3] characters in all. So the shown text
    never has more than [maxLength + 3] characters, and a text one or two
    characters over the bound is shown longer than it is. *)
Theorem truncateText_shown text maxLength :
  0 ≤ maxLength →
  let shownText := Client.truncateText text maxLength in
  let n := Z.to_nat maxLength in
  (Z.of_nat (String.length text) ≤ maxLength → shownText = text)
  ∧ (maxLength < Z.of_nat (String.length text) →
     String.length shownText = (n + 3)%nat
     ∧ String.substring 0 n shownText = String.substring 0 n text
     ∧ String.substring n 3 shownText = "..."%string)
  ∧ (String.length shownText ≤ n + 3)%nat
  ∧ (maxLength < Z.of_nat (String.length text) < maxLength + 3 →
     (String.length text < String.length shownText)%nat).
Proof.
  intros Hn shownText n. subst shownText n. unfold Client.truncateText.
  set (n := Z.to_nat maxLength).
  assert (Hlong : maxLength < Z.of_nat (String.length text) →
            String.length (String.substring 0 n text) = n).
  { intros Hlt. apply length_substring_0. lia. }
  destruct (Z.leb_spec (Z.of_nat (String.length text)) maxLength) as [Hle|Hlt].
  - split; [done|]. split; [lia|]. split; lia.
  - specialize (Hlong Hlt).
    split; [lia|]. split; [|split].
    + intros _. split; [rewrite length_append, Hlong; simpl; lia|].
      split.
      * rewrite <- Hlong at 1. apply substring_append_l.
      * rewrite <- Hlong at 1. apply (substring_append_r _ "...").
    + rewrite length_append, Hlong. simpl. lia.
    + intros H. rewrite length_append, Hlong. simpl. unfold n. lia.
Qed.

Lemma truncateText_shown_witness :
  Client.truncateText "The Lord of the Rings: The Return of the King" 30
  = "The Lord of the Rings: The Ret..."%string
  ∧ String.length (Client.truncateText "The Assassination of Jesse James" 30) = 33%nat
  ∧ (String.length "The Assassination of Jesse James"
     < String.length (Client.truncateText "The Assassination of Jesse James" 30))%nat.
Proof.
  split; [reflexivity|].
  destruct (truncateText_shown "The Assassination of Jesse James" 30 ltac:(lia))
    as (_ & Hlong & _ & Hlonger).
  split.
  - destruct Hlong as (Hlen & _); [vm_compute; reflexivity | exact Hlen].
  - apply Hlonger. vm_compute. split; reflexivity.
Defined.

(** ** The movie form against the routes *)

Lemma trim_length s : (String.length (JS.trim s) ≤ String.length s)%nat.
Proof.
  unfold JS.trim.
  assert (He : ∀ t, (String.length (JS.trimEnd t) ≤ String.length t)%nat).
  { induction t as [|c r IH]; simpl; [lia|].
    destruct (JS.trimEnd r); [destruct (JS.isWhiteSpace c)|]; simpl in *; lia. }
  assert (Hs : ∀ t, (String.length (JS.trimStart t) ≤ String.length t)%nat).
  { induction t as [|c r IH]; simpl; [lia|].
    destruct (JS.isWhiteSpace c); simpl; lia. }
  etrans; [apply He | apply Hs].
Qed.

Lemma clean_string_cases v :
  (Client.clean_string v = None ∧ (v = None ∨ JS.trim <$> v = Some EmptyString))
  ∨ ∃ g, v = Some g ∧ JS.trim g ≠ EmptyString ∧ Client.clean_string v = Some (JS.trim g).
Proof.
  unfold Client.clean_string. destruct v as [g|]; simpl; [|left; auto].
  destruct (JS.trim g) eqn:E; [left; auto|]. right. exists g. by rewrite E.
Qed.

Lemma spread_clean_string v :
  JS.trim <$> spread_string (Client.clean_string v) = Client.clean_string v.
Proof.
  destruct (clean_string_cases v) as [[-> _] | (g & -> & Hne & ->)]; [done|].
  unfold spread_string. destruct (JS.trim g) eqn:E; [done|]. simpl.
  by rewrite <- E, !trim_idem.
Qed.

Lemma spread_number_idem v : spread_number (spread_number v) = spread_number v.
Proof. unfold spread_number. destruct (JS.truthy_number v) eqn:E; [by rewrite E | done]. Qed.

(** X14. What the form sends on create is what is stored: when create
    answers 201 for the form's [cleanedData], the stored title, description,
    genre, release year and poster URL are exactly the cleaned ones (the
    server's own trimming and dropping change nothing more), and the stored
    rating is the cleaned one, or 0 when the form has none. *)
Theorem form_create_stores_cleaned currentYear analyze oid now stamp db user formData
    message created db' :
  router_post_root currentYear analyze oid now stamp db user (Client.cleanedData formData)
  = (Res 201 (MessageMovie message (Some created)), db') →
  movies db' !! oid = Some (doc created)
  ∧ title (doc created) = JS.trim (Client.fd_title formData)
  ∧ description (doc created) = JS.trim (Client.fd_description formData)
  ∧ genre (doc created) = f_genre (Client.cleanedData formData)
  ∧ releaseYear (doc created) = f_releaseYear (Client.cleanedData formData)
  ∧ rating (doc created) = default (inject_Z 0) (f_rating (Client.cleanedData formData))
  ∧ posterUrl (doc created) = f_posterUrl (Client.cleanedData formData).
Proof.
  intros (t & d & [= <-] & [= <-] & _ & _ & _ & -> & ->)%post_ok_inv. simpl.
  rewrite lookup_insert_eq, !trim_idem, !spread_clean_string.
  fold (spread_number (Client.fd_releaseYear formData)).
  fold (spread_number (Client.fd_rating formData)).
  by rewrite !spread_number_idem.
Qed.

Lemma form_create_stores_cleaned_witness :
  let formData :=
    {| Client.fd_title := "  Heat "; Client.fd_description := "Crime ";
       Client.fd_genre := Some "   "%string; Client.fd_releaseYear := None;
       Client.fd_rating := Some (inject_Z 0); Client.fd_posterUrl := Some EmptyString |} in
  ∃ created db',
    router_post_root Sample.year Sample.analyze 255%N 5000 5001 Sample.db1 Sample.bob
      (Client.cleanedData formData)
    = (Res 201 (MessageMovie "Movie added successfully" (Some created)), db')
    ∧ title (doc created) = "Heat"%string ∧ genre (doc created) = None
    ∧ rating (doc created) = inject_Z 0.
Proof.
  intros formData. eexists _, _. split; [reflexivity|].
  destruct (form_create_stores_cleaned Sample.year Sample.analyze 255%N 5000 5001
              Sample.db1 Sample.bob formData _ _ _ eq_refl)
    as (_ & Ht & _ & Hg & _ & Hr & _).
  split; [exact Ht|]. split; [exact Hg | exact Hr].
Defined.

(** X15. The edit form cannot clear an optional field. When the form's
    genre or poster URL is absent or blank, or its release year or rating is
    absent or zero, [cleanedData] leaves the field out, and the update then
    leaves the stored value of every movie as it was, whoever sends it and
    whatever it answers. *)
Theorem form_cannot_clear currentYear stamp db user id formData k m :
  movies db !! k = Some m →
  ∃ m',
    movies (router_put_id currentYear stamp db user id (Client.cleanedData formData)).2 !! k
    = Some m'
    ∧ (Client.fd_genre formData = None ∨ JS.trim <$> Client.fd_genre formData = Some EmptyString →
       genre m' = genre m)
    ∧ (Client.fd_posterUrl formData = None
       ∨ JS.trim <$> Client.fd_posterUrl formData = Some EmptyString →
       posterUrl m' = posterUrl m)
    ∧ (JS.truthy_number (Client.fd_releaseYear formData) = false →
       releaseYear m' = releaseYear m)
    ∧ (JS.truthy_number (Client.fd_rating formData) = false → rating m' = rating m).
Proof.
  intros Hk.
  assert (Hclean : ∀ v, v = None ∨ JS.trim <$> v = Some EmptyString →
            Client.clean_string v = None).
  { intros v [-> | Hv]; [done|]. unfold Client.clean_string. by rewrite Hv. }
  destruct (put_touches_own currentYear stamp db user id (Client.cleanedData formData) k m Hk)
    as [H | [_ H]]; rewrite H.
  { exists m. repeat split; done. }
  exists (updated stamp (Client.cleanedData formData) m). split; [done|].
  destruct (updated_absent stamp (Client.cleanedData formData) m)
    as (_ & _ & _ & _ & _ & _ & Hg & Hy & Hr & Hp).
  split; [intros Hv; apply Hg; simpl; by apply Hclean|].
  split; [intros Hv; apply Hp; simpl; by apply Hclean|].
  split; [intros Hv; apply Hy; simpl; by rewrite Hv|].
  intros Hv. apply Hr. simpl. by rewrite Hv.
Qed.

Lemma form_cannot_clear_witness :
  let formData :=
    {| Client.fd_title := "Dune"; Client.fd_description := "Desert planet saga";
       Client.fd_genre := Some EmptyString; Client.fd_releaseYear := None;
       Client.fd_rating := Some (inject_Z 0); Client.fd_posterUrl := Some EmptyString |} in
  let r := router_put_id Sample.year 7 Sample.db1 Sample.alice Sample.duneId
             (Client.cleanedData formData) in
  status r.1 = 200
  ∧ ∃ m', movies r.2 !! 209%N = Some m'
          ∧ genre m' = Some "Sci-Fi"%string ∧ rating m' = 17 # 2
          ∧ releaseYear m' = Some (inject_Z 2021).
Proof.
  intros formData r. split; [reflexivity|].
  destruct (form_cannot_clear Sample.year 7 Sample.db1 Sample.alice Sample.duneId formData
              209%N Sample.dune eq_refl) as (m' & Hm' & Hg & _ & Hy & Hr).
  exists m'. split; [exact Hm'|].
  split; [apply Hg; by right|]. split; [by apply Hr | by apply Hy].
Defined.

(** X16. A form the submit button lets through passes the validation chain
    of both routes: when the button is enabled and the title and the
    description have at most 200 and 1000 characters, [cleanedData] has no
    validation error on create nor on update, and its title and description
    are non-empty once trimmed, as the schema requires. The button is
    disabled exactly while loading or when the title or the description is
    blank. *)
Theorem enabled_form_is_valid isLoading formData :
  (Client.submitDisabled isLoading formData = true
   ↔ isLoading = true ∨ JS.trim (Client.fd_title formData) = EmptyString
     ∨ JS.trim (Client.fd_description formData) = EmptyString)
  ∧ (Client.submitDisabled isLoading formData = false →
     (String.length (Client.fd_title formData) ≤ 200)%nat →
     (String.length (Client.fd_description formData) ≤ 1000)%nat →
     post_validationResult (Client.cleanedData formData) = []
     ∧ put_validationResult (Client.cleanedData formData) = []
     ∧ (∀ t, f_title (applySetters (put_updates (Client.cleanedData formData))) = Some t →
          checkRequired t && maxlength 200 t = true)
     ∧ (∀ d, f_description (applySetters (put_updates (Client.cleanedData formData)))
             = Some d →
          checkRequired d && maxlength 1000 d = true)).
Proof.
  unfold Client.submitDisabled.
  assert (Hblank : ∀ s, negb (JS.truthy_string (Some (JS.trim s))) = true
                        ↔ JS.trim s = EmptyString).
  { intros s. destruct (JS.trim s); simpl; naive_solver. }
  split.
  { rewrite !orb_true_iff, !Hblank. tauto. }
  intros Hen Hlt Hld.
  apply orb_false_iff in Hen as [[_ Ht]%orb_false_iff Hd].
  assert (Ht' : JS.trim (Client.fd_title formData) ≠ EmptyString).
  { intros E. apply Hblank in E. congruence. }
  assert (Hd' : JS.trim (Client.fd_description formData) ≠ EmptyString).
  { intros E. apply Hblank in E. congruence. }
  pose proof (trim_length (Client.fd_title formData)) as Hlt'.
  pose proof (trim_length (Client.fd_description formData)) as Hld'.
  assert (Hput : put_validationResult (Client.cleanedData formData) = []).
  { apply put_valid_inv. simpl. split; intros ? [= <-]; split; try done; lia. }
  split; [|split; [done|]].
  - unfold post_validationResult. rewrite !app_nil, !check_nil, !notEmpty_true. simpl.
    rewrite !isLength_max_Some. repeat split; eauto; lia.
  - assert (Hreq : ∀ s n, JS.trim s ≠ EmptyString → (String.length (JS.trim s) ≤ n)%nat →
              checkRequired (JS.trim s) && maxlength n (JS.trim s) = true).
    { intros s n Hne Hlen. apply andb_true_iff. split.
      - unfold checkRequired. destruct (JS.trim s); [congruence | done].
      - by apply Nat.leb_le. }
    simpl. split; intros ? [= <-]; rewrite !trim_idem; apply Hreq; (done || lia).
Qed.

Lemma enabled_form_is_valid_witness :
  let formData :=
    {| Client.fd_title := " Dune "; Client.fd_description := "Desert planet saga";
       Client.fd_genre := None; Client.fd_releaseYear := None;
       Client.fd_rating := None; Client.fd_posterUrl := None |} in
  Client.submitDisabled false formData = false
  ∧ post_validationResult (Client.cleanedData formData) = []
  ∧ put_validationResult (Client.cleanedData formData) = [].
Proof.
  intros formData.
  assert (Hen : Client.submitDisabled false formData = false) by reflexivity.
  split; [exact Hen|].
  destruct (enabled_form_is_valid false formData) as (_ & Hvalid).
  destruct Hvalid as (Hpost & Hput & _); [exact Hen | simpl; lia | simpl; lia |].
  split; [exact Hpost | exact Hput].
Defined.

Lemma reachable_trimmedDB currentYear analyze db :
  reachable currentYear analyze db → trimmedDB db.
Proof.
  induction 1 as [us | db db' _ IH Hstep]; [apply map_Forall_empty|].
  by eapply step_trimmed.
Qed.

(** What the untouched edit form of a stored movie sends, once the server's
    setters have run. *)
Lemma formOf_updates m :
  trimmedDoc m = true →
  applySetters (put_updates (Client.cleanedData (Client.formOf m)))
  = {| f_title := Some (title m);
       f_description := Some (description m);
       f_genre := if JS.truthy_string (genre m) then genre m else None;
       f_releaseYear := spread_number (releaseYear m);
       f_rating := spread_number (Some (rating m));
       f_posterUrl := if JS.truthy_string (posterUrl m) then posterUrl m else None |}.
Proof.
  intros (Ht & Hd & Hg & Hp)%trimmedDoc_spec.
  assert (Hclean : ∀ v, (∀ g, v = Some g → JS.trim g = g) →
            JS.trim <$> (JS.trim <$>
              Client.clean_string
                (Some (if JS.truthy_string v then default EmptyString v else EmptyString)))
            = (if JS.truthy_string v then v else None)).
  { intros [[|c g]|] Hv; try done. specialize (Hv _ eq_refl).
    unfold Client.clean_string. simpl. rewrite Hv. simpl. by rewrite !Hv. }
  unfold applySetters, put_updates, Client.cleanedData, Client.formOf; simpl.
  rewrite !Ht, !Hd, (Hclean _ Hg), (Hclean _ Hp). done.
Qed.

(** X17. Saving the edit form of a movie without changing anything changes
    nothing but [updatedAt]: in a database the routes can reach, the update
    the owner's untouched form sends is answered 200, and the stored movie
    is the one there was, with the new [updatedAt]. *)
Theorem edit_unchanged_only_touches currentYear analyze stamp db id oid m :
  reachable currentYear analyze db →
  castObjectId id = Some oid → movies db !! oid = Some m →
  router_put_id currentYear stamp db (uploadedBy m) id (Client.cleanedData (Client.formOf m))
  = (Res 200 (MessageMovie "Movie updated successfully"
                (Some (populate ["username"%string] (users db) (touched stamp m)))),
     with_movies db (<[oid := touched stamp m]> (movies db))).
Proof.
  intros Hreach Hid Hm.
  pose proof (reachable_trimmedDB _ _ _ Hreach oid m Hm) as Htrim. simpl in Htrim.
  destruct (reachable_wellFormed _ _ _ Hreach oid m Hm) as [_ Hvalid].
  pose proof (formOf_updates m Htrim) as Hu.
  pose proof Htrim as (Ht & Hd & _)%trimmedDoc_spec.
  assert (Hfields : runValidators currentYear (fieldsOf m) = true) by done.
  revert Hvalid. unfold runValidators, fieldsOf; simpl. rewrite !andb_true_iff.
  intros (((([Hrt Hlt] & [Hrd Hld]) & Hg) & Hy) & Hr).
  assert (Hupd : updated stamp (Client.cleanedData (Client.formOf m)) m = touched stamp m).
  { unfold updated. rewrite Hu. unfold applyUpdate, touched, spread_number; simpl.
    destruct m as [i t d u a g y r p c up]; simpl.
    destruct g as [[|]|], y as [y|], p as [[|]|]; simpl;
      try destruct (negb (Qeq_bool y 0)); destruct (negb (Qeq_bool r 0)); reflexivity. }
  rewrite <- Hupd. apply put_owner_ok; try done.
  - apply put_valid_inv. simpl. rewrite Ht, Hd. unfold checkRequired, maxlength in *.
    apply Nat.leb_le in Hlt, Hld.
    split; intros ? [= <-]; (split; [|done]); intros E; by rewrite E in *.
  - rewrite Hu. unfold runValidators, spread_number; simpl.
    rewrite Hrt, Hlt, Hrd, Hld. simpl.
    destruct (genre m) as [[|]|], (releaseYear m) as [y|]; simpl in *;
      try destruct (negb (Qeq_bool y 0)); destruct (negb (Qeq_bool (rating m) 0));
      simpl; rewrite ?Hg, ?Hy, ?Hr; done.
Qed.

Lemma edit_unchanged_only_touches_witness :
  let db0 := {| movies := ∅; users := Sample.accounts |} in
  let db := (router_post_root Sample.year Sample.analyze 209%N 1000 1000 db0 Sample.alice
               (Fields (Some "Dune"%string) (Some "Desert planet saga"%string)
                  (Some "Sci-Fi"%string) (Some (inject_Z 2021)) (Some (17 # 2)) None)).2 in
  movies db !! 209%N = Some Sample.dune
  ∧ router_put_id Sample.year 7 db Sample.alice Sample.duneId
      (Client.cleanedData (Client.formOf Sample.dune))
    = (Res 200 (MessageMovie "Movie updated successfully"
                  (Some (populate ["username"%string] (users db) (touched 7 Sample.dune)))),
       with_movies db (<[209%N := touched 7 Sample.dune]> (movies db))).
Proof.
  intros db0 db.
  assert (Hreach : reachable Sample.year Sample.analyze db).
  { eapply reachable_step; [apply reachable_empty | apply step_post]. }
  assert (Hm : movies db !! 209%N = Some Sample.dune) by reflexivity.
  split; [exact Hm|].
  apply (edit_unchanged_only_touches Sample.year Sample.analyze 7 db Sample.duneId 209%N
           Sample.dune Hreach eq_refl Hm).
Defined.

(** ** The dashboard *)

(** X18. The dashboard's list of movies under its three updates.
    [handleMovieUpdated] keeps the ids of the list and their order, replaces
    every entry that has the id of the updated movie and leaves the list as
    it is when no entry has it; [handleMovieDeleted] keeps exactly the
    entries with another id; and deleting a movie that was just added, when
    no other entry has its id, gives back the list there was. *)
Theorem dashboard_list_updates (prev : list Populated) :
  (∀ u, (λ p, _id (doc p)) <$> Client.handleMovieUpdated u prev
        = (λ p, _id (doc p)) <$> prev)
  ∧ (∀ u p, p ∈ Client.handleMovieUpdated u prev →
       p = u ∨ (p ∈ prev ∧ _id (doc p) ≠ _id (doc u)))
  ∧ (∀ u, (∀ p, p ∈ prev → _id (doc p) ≠ _id (doc u)) →
       Client.handleMovieUpdated u prev = prev)
  ∧ (∀ movieId p,
       p ∈ Client.handleMovieDeleted movieId prev ↔ p ∈ prev ∧ _id (doc p) ≠ movieId)
  ∧ (∀ newMovie, (∀ p, p ∈ prev → _id (doc p) ≠ _id (doc newMovie)) →
       Client.handleMovieDeleted (_id (doc newMovie)) (Client.handleMovieAdded newMovie prev)
       = prev).
Proof.
  assert (Hdel : ∀ movieId, (∀ p, p ∈ prev → _id (doc p) ≠ movieId) →
            Client.handleMovieDeleted movieId prev = prev).
  { intros movieId Hno. unfold Client.handleMovieDeleted.
    induction prev as [|x l IH]; simpl; [done|].
    destruct (N.eqb_spec (_id (doc x)) movieId) as [E|_]; simpl.
    - destruct (Hno x); [left | done].
    - rewrite IH; [done|]. intros p Hp. apply Hno. by right. }
  split; [|split; [|split; [|split]]].
  - intros u. unfold Client.handleMovieUpdated. rewrite <- list_fmap_compose.
    apply list_fmap_ext. intros _ p _. simpl.
    by destruct (N.eqb_spec (_id (doc p)) (_id (doc u))) as [->|].
  - intros u p (x & -> & Hx)%list_elem_of_fmap.
    destruct (N.eqb_spec (_id (doc x)) (_id (doc u))); [by left | by right].
  - intros u Hno. unfold Client.handleMovieUpdated.
    rewrite <- (list_fmap_id prev) at 2. apply list_fmap_ext. intros _ p Hp%list_elem_of_lookup_2.
    simpl. destruct (N.eqb_spec (_id (doc p)) (_id (doc u))); [by destruct (Hno p Hp) | done].
  - intros movieId p. unfold Client.handleMovieDeleted.
    rewrite list_elem_of_In, filter_In, <- list_elem_of_In, negb_true_iff, N.eqb_neq. done.
  - intros newMovie Hno. unfold Client.handleMovieAdded, Client.handleMovieDeleted. simpl.
    rewrite N.eqb_refl. simpl. by apply Hdel.
Qed.

Lemma dashboard_list_updates_witness :
  let dune := populate ["username"%string] Sample.accounts Sample.dune in
  let arrival := populate ["username"%string] Sample.accounts Sample.arrival in
  Client.handleMovieDeleted 162%N (Client.handleMovieAdded arrival [dune]) = [dune]
  ∧ Client.handleMovieUpdated arrival [dune] = [dune].
Proof.
  intros dune arrival.
  destruct (dashboard_list_updates [dune]) as (_ & _ & Hupd & _ & Hadd).
  assert (Hfresh : ∀ p, p ∈ [dune] → _id (doc p) ≠ _id (doc arrival)).
  { intros p ->%list_elem_of_singleton. discriminate. }
  split; [apply (Hadd arrival Hfresh) | apply (Hupd arrival Hfresh)].
Defined.




(** * Further properties of create, update and delete *)

Lemma findOne_None_inv analyze (ms : gmap ObjectId Movie) q k m :
  findOne analyze ms q = None → ms !! k = Some m → matches analyze q m = false.
Proof.
  unfold findOne. intros Hnone Hk.
  destruct (matches analyze q m) eqn:Hm; [|done].
  assert (Hin : m ∈ find analyze ms q) by (apply elem_of_find; eauto).
  destruct (find analyze ms q); [by apply not_elem_of_nil in Hin | done].
Qed.

Lemma post_stored_new_title currentYear analyze oid now stamp db user body :
  (router_post_root currentYear analyze oid now stamp db user body).2 = db
  ∨ ∃ t d, movies db !! oid = None
      ∧ (∀ k m, movies db !! k = Some m → uploadedBy m = user → title m ≠ JS.trim t)
      ∧ (router_post_root currentYear analyze oid now stamp db user body).2
        = with_movies db
            (<[oid := post_document oid now stamp user t d body]> (movies db)).
Proof.
  unfold router_post_root, save.
  destruct (post_validationResult body); [|by left].
  destruct (f_title body) as [t|]; [|by left].
  destruct (f_description body) as [d|]; [|by left].
  destruct (findOne _ _ _) eqn:Hfind; [by left|].
  destruct (runValidators _ _); [|by left].
  change (_id (post_document oid now stamp user t d body)) with oid.
  destruct (movies db !! oid) eqn:Hf; [by left|].
  right. exists t, d. split; [done|]. split; [|done].
  intros k m Hk Hu He.
  pose proof (findOne_None_inv _ _ _ k m Hfind Hk) as Hm. revert Hm.
  unfold matches; simpl. by rewrite He, Hu, String.eqb_refl, N.eqb_refl.
Qed.

Lemma post_between_same currentYear analyze oid now stamp db user body :
  post_between currentYear analyze oid now stamp db db user body
  = router_post_root currentYear analyze oid now stamp db user body.
Proof. reflexivity. Qed.

Lemma post_201_inv currentYear analyze oid now stamp db user body message created db' :
  router_post_root currentYear analyze oid now stamp db user body
  = (Res 201 (MessageMovie message (Some created)), db') →
  ∃ t d, f_title body = Some t ∧ f_description body = Some d
    ∧ post_validationResult body = []
    ∧ findOne analyze (movies db)
        {| q_text := None; q_title := Some (JS.trim t); q_uploadedBy := Some user |} = None
    ∧ runValidators currentYear (fieldsOf (post_document oid now stamp user t d body)) = true
    ∧ movies db !! oid = None
    ∧ created = populate ["username"%string] (users db)
                  (post_document oid now stamp user t d body)
    ∧ db' = with_movies db
              (<[oid := post_document oid now stamp user t d body]> (movies db)).
Proof.
  unfold router_post_root, save.
  destruct (post_validationResult body); [|discriminate].
  destruct (f_title body) as [t|]; [|discriminate].
  destruct (f_description body) as [d|]; [|discriminate].
  destruct (findOne _ _ _) eqn:Hfind; [discriminate|].
  destruct (runValidators _ _) eqn:Hr; [|discriminate].
  change (_id (post_document oid now stamp user t d body)) with oid.
  destruct (movies db !! oid) eqn:Hf; [discriminate|].
  intros [= _ <- <-]. by exists t, d.
Qed.

(** X20. The duplicate-title check of create is a lookup followed, after
    another await, by the insert. When no other request writes between the
    two, create keeps the titles of each user distinct, and so does delete.
    When another create of the same user and title is stored between the
    lookup and the insert, both are answered 201 and both are stored: the
    user then owns two movies with the same title. *)
Theorem duplicate_check_is_not_atomic currentYear analyze :
  (∀ oid now stamp db user body,
     post_between currentYear analyze oid now stamp db db user body
     = router_post_root currentYear analyze oid now stamp db user body)
  ∧ (∀ oid now stamp db user body,
       uniqueTitles db →
       uniqueTitles (post_between currentYear analyze oid now stamp db db user body).2)
  ∧ (∀ db user id, uniqueTitles db → uniqueTitles (router_delete_id db user id).2)
  ∧ (∀ oid1 oid2 now1 stamp1 now2 stamp2 db user body message created db1,
       router_post_root currentYear analyze oid1 now1 stamp1 db user body
       = (Res 201 (MessageMovie message (Some created)), db1) →
       movies db1 !! oid2 = None →
       ∃ created2 db2,
         post_between currentYear analyze oid2 now2 stamp2 db db1 user body
         = (Res 201 (MessageMovie "Movie added successfully" (Some created2)), db2)
         ∧ oid1 ≠ oid2
         ∧ movies db2 !! oid1 = Some (doc created)
         ∧ movies db2 !! oid2 = Some (doc created2)
         ∧ uploadedBy (doc created) = uploadedBy (doc created2)
         ∧ title (doc created) = title (doc created2)
         ∧ ¬ uniqueTitles db2).
Proof.
  split; [intros; apply post_between_same|]. split; [|split].
  - intros oid now stamp db user body Huniq. rewrite post_between_same.
    destruct (post_stored_new_title currentYear analyze oid now stamp db user body)
      as [-> | (t & d & Hfresh & Hnew & ->)]; [done|].
    assert (Hdoc : ∀ k m, movies db !! k = Some m →
              uploadedBy m = uploadedBy (post_document oid now stamp user t d body) →
              title m = title (post_document oid now stamp user t d body) → False).
    { intros k m Hk Hu Ht. simpl in Hu, Ht. rewrite trim_idem in Ht. by eapply Hnew. }
    intros k1 k2 m1 m2. simpl.
    destruct (decide (k1 = oid)) as [->|H1], (decide (k2 = oid)) as [->|H2];
      rewrite ?lookup_insert_eq, ?lookup_insert_ne by done; try done.
    + intros [= <-] Hk2 Hu Ht. by destruct (Hdoc k2 m2 Hk2).
    + intros Hk1 [= <-] Hu Ht. by destruct (Hdoc k1 m1 Hk1).
    + apply Huniq.
  - intros db user id Huniq.
    destruct (delete_outcome db user id) as [-> | (oid & m & _ & _ & _ & ->)]; [done|].
    intros k1 k2 m1 m2. simpl. intros Hk1%lookup_delete_Some Hk2%lookup_delete_Some.
    apply Huniq; [apply Hk1 | apply Hk2].
  - intros oid1 oid2 now1 stamp1 now2 stamp2 db user body message created db1 H Hfree.
    apply post_201_inv in H as (t & d & Ht & Hd & Hv & Hfind & Hr & _ & -> & ->).
    simpl in Hfree.
    assert (Hne : oid1 ≠ oid2).
    { intros ->. by rewrite lookup_insert_eq in Hfree. }
    unfold post_between, save. rewrite Hv, Ht, Hd, Hfind.
    change (runValidators currentYear
              (fieldsOf (post_document oid2 now2 stamp2 user t d body)))
      with (runValidators currentYear
              (fieldsOf (post_document oid1 now1 stamp1 user t d body))).
    rewrite Hr.
    change (_id (post_document oid2 now2 stamp2 user t d body)) with oid2.
    simpl movies. rewrite Hfree.
    eexists _, _. split; [reflexivity|]. simpl.
    rewrite lookup_insert_eq, lookup_insert_ne, lookup_insert_eq by done.
    repeat split; try done.
    intros Huniq. apply Hne.
    apply (Huniq oid1 oid2 (post_document oid1 now1 stamp1 user t d body)
             (post_document oid2 now2 stamp2 user t d body)); simpl;
      rewrite ?lookup_insert_eq, ?lookup_insert_ne, ?lookup_insert_eq by done; done.
Qed.

Lemma duplicate_check_is_not_atomic_witness :
  let first := router_post_root Sample.year Sample.analyze 255%N 5000 5001 Sample.db1
                 Sample.bob (newMovie "Heat" "Crime") in
  let second := post_between Sample.year Sample.analyze 254%N 5002 5003 Sample.db1 first.2
                  Sample.bob (newMovie "Heat" "Crime") in
  status first.1 = 201 ∧ status second.1 = 201
  ∧ (title <$> movies second.2 !! 255%N) = Some "Heat"%string
  ∧ (title <$> movies second.2 !! 254%N) = Some "Heat"%string
  ∧ ¬ uniqueTitles second.2.
Proof.
  intros first second.
  split; [reflexivity|]. split; [reflexivity|].
  split; [reflexivity|]. split; [reflexivity|].
  destruct (duplicate_check_is_not_atomic Sample.year Sample.analyze) as (_ & _ & _ & Hrace).
  destruct (Hrace 255%N 254%N 5000 5001 5002 5003 Sample.db1 Sample.bob
              (newMovie "Heat" "Crime") _ _ _ eq_refl eq_refl)
    as (created2 & db2 & Heq & _ & _ & _ & _ & _ & Hdup).
  assert (second.2 = db2) as -> by exact (f_equal snd Heq).
  exact Hdup.
Defined.

(** X21. An update with an empty body, sent by the owner, is answered 200
    and changes nothing but [updatedAt]. *)
Theorem empty_update_only_touches currentYear stamp db id oid m :
  castObjectId id = Some oid → movies db !! oid = Some m →
  router_put_id currentYear stamp db (uploadedBy m) id
    (Fields None None None None None None)
  = (Res 200 (MessageMovie "Movie updated successfully"
                (Some (populate ["username"%string] (users db) (touched stamp m)))),
     with_movies db (<[oid := touched stamp m]> (movies db))).
Proof.
  intros Hid Hm.
  by rewrite (put_owner_ok currentYear stamp db (uploadedBy m) id oid m
                (Fields None None None None None None) eq_refl Hid Hm eq_refl eq_refl).
Qed.

Lemma empty_update_only_touches_witness :
  router_put_id Sample.year 7 Sample.db1 Sample.alice Sample.duneId
    (Fields None None None None None None)
  = (Res 200 (MessageMovie "Movie updated successfully"
                (Some (populate ["username"%string] (users Sample.db1)
                         (touched 7 Sample.dune)))),
     with_movies Sample.db1 (<[209%N := touched 7 Sample.dune]> (movies Sample.db1))).
Proof.
  apply (empty_update_only_touches Sample.year 7 Sample.db1 Sample.duneId 209%N Sample.dune);
    reflexivity.
Defined.
